(** * dbt: parser, template client and default adapter

    A shallow embedding of [dbt/parser.py], [dbt/clients/jinja.py] and
    [dbt/adapters/default.py], with the properties of the specification
    that concern them.

    Python dictionaries whose insertion order is observable are kept as
    association lists; the process-wide [connection_cache] is a finite
    map from connection names to references into a store of connection
    objects, because the adapter mutates cached dictionaries in place. *)

From Stdlib Require Import String Ascii List ZArith Lia Bool.
From stdpp Require Import base option list gmap strings pretty fin_maps.

Open Scope string_scope.

(** ** Python values *)

#[warnings="-register-all"]
Inductive pyval : Type :=
| PNone
| PBool (b : bool)
| PInt (z : Z)
| PStr (s : string)
| PHandle (h : nat)
| PList (l : list pyval)
| PSet (l : list pyval)
| PDict (d : list (string * pyval)).

(** A [dict] with string keys, in insertion order, keys pairwise distinct. *)
Abbreviation pydict := (list (string * pyval)).

Fixpoint dict_get {V : Type} (k : string) (d : list (string * V)) : option V :=
  match d with
  | [] => None
  | (k', v) :: d' => if String.eqb k k' then Some v else dict_get k d'
  end.

(** [d.get(k)]: [None] when the key is absent. *)
Definition py_get (d : pydict) (k : string) : pyval :=
  match dict_get k d with Some v => v | None => PNone end.

(** [d.get(k, dflt)] *)
Definition py_get_default (d : pydict) (k : string) (dflt : pyval) : pyval :=
  match dict_get k d with Some v => v | None => dflt end.

(** [d[k] = v]: an existing key keeps its position. *)
Fixpoint dict_set {V : Type} (k : string) (v : V) (d : list (string * V))
  : list (string * V) :=
  match d with
  | [] => [(k, v)]
  | (k', v') :: d' =>
      if String.eqb k k' then (k, v) :: d' else (k', v') :: dict_set k v d'
  end.

(** [d.pop(k, None)], result discarded. *)
Fixpoint dict_pop {V : Type} (k : string) (d : list (string * V))
  : list (string * V) :=
  match d with
  | [] => []
  | (k', v') :: d' =>
      if String.eqb k k' then dict_pop k d' else (k', v') :: dict_pop k d'
  end.

(** [d.update(other)] *)
Definition dict_update {V : Type} (d other : list (string * V))
  : list (string * V) :=
  fold_left (fun acc kv => dict_set (fst kv) (snd kv) acc) other d.

(** [copy.deepcopy]: values are immutable here, so the copy is the value;
    what matters is that later writes go to the copy. *)
Definition deepcopy {A : Type} (x : A) : A := x.

(** ** Strings as Python prints them *)

Definition newline : ascii := "010"%char.
Definition squote : ascii := "039"%char.
Definition dquote : ascii := "034"%char.
Definition backslash : ascii := "092"%char.

Definition char_str (c : ascii) : string := String c EmptyString.

Fixpoint contains_char (c : ascii) (s : string) : bool :=
  match s with
  | EmptyString => false
  | String c' s' => if Ascii.eqb c c' then true else contains_char c s'
  end.

Fixpoint join (sep : string) (l : list string) : string :=
  match l with
  | [] => ""
  | [x] => x
  | x :: l' => x +:+ sep +:+ join sep l'
  end.

Definition hex_digit (n : nat) : ascii :=
  match n with
  | 0 => "0" | 1 => "1" | 2 => "2" | 3 => "3" | 4 => "4" | 5 => "5"
  | 6 => "6" | 7 => "7" | 8 => "8" | 9 => "9" | 10 => "a" | 11 => "b"
  | 12 => "c" | 13 => "d" | 14 => "e" | _ => "f"
  end%char.

Definition repr_char (quote c : ascii) : string :=
  let n := nat_of_ascii c in
  if Ascii.eqb c backslash then String backslash (char_str backslash)
  else if Ascii.eqb c quote then String backslash (char_str quote)
  else if Ascii.eqb c newline then String backslash "n"
  else if Ascii.eqb c "013"%char then String backslash "r"
  else if Ascii.eqb c "009"%char then String backslash "t"
  else if (n <? 32)%nat || (n =? 127)%nat then
    String backslash
      (String "x" (String (hex_digit (n / 16)) (char_str (hex_digit (n mod 16)))))
  else char_str c.

Fixpoint repr_chars (quote : ascii) (s : string) : string :=
  match s with
  | EmptyString => EmptyString
  | String c s' => repr_char quote c +:+ repr_chars quote s'
  end.

(** [repr] of a [str]: single quotes unless the text has a single quote
    and no double quote. *)
Definition repr_string (s : string) : string :=
  let quote :=
    if contains_char squote s && negb (contains_char dquote s)
    then dquote else squote in
  char_str quote +:+ repr_chars quote s +:+ char_str quote.

(** [repr]; a driver handle prints as an address in Python, which nothing
    here depends on. *)
Fixpoint py_repr (v : pyval) : string :=
  match v with
  | PNone => "None"
  | PBool true => "True"
  | PBool false => "False"
  | PInt z => pretty z
  | PStr s => repr_string s
  | PHandle _ => "<connection object>"
  | PList l => "[" +:+ join ", " (map py_repr l) +:+ "]"
  | PSet [] => "set()"
  | PSet l => "{" +:+ join ", " (map py_repr l) +:+ "}"
  | PDict d =>
      "{" +:+ join ", " (map (fun kv => repr_string (fst kv) +:+ ": " +:+
                                         py_repr (snd kv)) d) +:+ "}"
  end.

(** [str] *)
Definition py_str (v : pyval) : string :=
  match v with
  | PStr s => s
  | _ => py_repr v
  end.

(** ** Exceptions *)

Inductive exn : Type :=
| TypeError (msg : string)
| KeyError (key : string)
| AttributeError (msg : string)
| UnboundLocalError (var : string)
| RecursionError
| RuntimeError (msg : string)
| NotImplementedException (msg : string)
| ProgrammingException (msg : string)
| ValidationException (msg : string)
| IndexError (msg : string)
| ValueError (msg : string)
| TemplateSyntaxError (msg : string)
| UndefinedError (msg : string)
| CompilerError (node_name : pyval) (msg : string)
| DriverError (msg : string).

Inductive Result (A : Type) : Type :=
| Ok (a : A)
| Raise (e : exn).
Arguments Ok {A} a.
Arguments Raise {A} e.

Definition is_ok {A : Type} (r : Result A) : bool :=
  match r with Ok _ => true | Raise _ => false end.

Definition rbind {A B : Type} (r : Result A) (f : A -> Result B) : Result B :=
  match r with Ok a => f a | Raise e => Raise e end.

(** ** Splitting compiled SQL at operation markers

    [re.split] of [execute_model], whose pattern is two dashes, a space
    and a group capturing [DBT_OPERATION ] with the rest of the line: the
    result holds the text before each match, then the captured group, and
    the text after the last match.
    A match starts at the leftmost [-- DBT_OPERATION ] and runs to the
    end of its line ([.] matches everything but a newline). *)

Definition marker_start : string := "-- DBT_OPERATION ".

Inductive split_mode : Type :=
| InText
| SkipDashes (n : nat)
| InGroup.

Fixpoint re_split_go (mode : split_mode) (cur : string) (s : string)
  : list string :=
  match s with
  | EmptyString =>
      match mode with
      | InText => [cur]
      | _ => [cur; ""]
      end
  | String c s' =>
      match mode with
      | InText =>
          if String.prefix marker_start s
          then cur :: re_split_go (SkipDashes 1) "" s'
          else re_split_go InText (cur +:+ char_str c) s'
      | SkipDashes (S n) => re_split_go (SkipDashes n) "" s'
      | SkipDashes O => re_split_go InGroup "" s'
      | InGroup =>
          if Ascii.eqb c newline
          then cur :: re_split_go InText (char_str c) s'
          else re_split_go InGroup (cur +:+ char_str c) s'
      end
  end.

Definition re_split (text : string) : list string :=
  re_split_go InText "" text.

Fixpoint ends_with_char (c : ascii) (s : string) : bool :=
  match s with
  | EmptyString => false
  | String c' EmptyString => Ascii.eqb c c'
  | String _ s' => ends_with_char c s'
  end.

Fixpoint drop_last (s : string) : string :=
  match s with
  | EmptyString => EmptyString
  | String _ EmptyString => EmptyString
  | String c s' => String c (drop_last s')
  end.

(** [re.match] of [execute_model]: the group when the part is
    [DBT_OPERATION ] followed by one line that opens with a brace and
    closes with one; the end anchor also matches before a final newline. *)
Definition match_operation (part : string) : option string :=
  if String.prefix "DBT_OPERATION {" part then
    let body := substring 14 (String.length part - 14) part in
    let body := if ends_with_char newline body then drop_last body
                else body in
    if negb (contains_char newline body) && ends_with_char "}"%char body
    then Some body else None
  else None.

(** [obj[key]] for a string key *)
Definition py_getitem (obj : pyval) (key : string) : Result pyval :=
  match obj with
  | PDict d =>
      match dict_get key d with
      | Some v => Ok v
      | None => Raise (KeyError key)
      end
  | _ => Raise (TypeError "object is not subscriptable by a string")
  end.

Definition hashable (v : pyval) : bool :=
  match v with
  | PList _ | PSet _ | PDict _ => false
  | _ => true
  end.

(** ** Connections and the adapter's world *)

Definition Handle := nat.
Definition loc := nat.

Record Connection : Type := mkConnection {
  c_type : string;
  c_name : string;
  c_state : string;
  c_transaction_open : bool;
  c_handle : option Handle;
  c_credentials : pydict
}.

Definition set_transaction_open (b : bool) (c : Connection) : Connection :=
  mkConnection (c_type c) (c_name c) (c_state c) b (c_handle c)
               (c_credentials c).

Definition set_state (s : string) (c : Connection) : Connection :=
  mkConnection (c_type c) (c_name c) s (c_transaction_open c) (c_handle c)
               (c_credentials c).

(** The connection dictionary seen as a plain mapping: [begin] hands a
    connection to [add_query] in the position of the profile. *)
Definition connection_dict (c : Connection) : pydict :=
  [ ("type", PStr (c_type c));
    ("name", PStr (c_name c));
    ("state", PStr (c_state c));
    ("transaction_open", PBool (c_transaction_open c));
    ("handle", match c_handle c with Some h => PHandle h | None => PNone end);
    ("credentials", PDict (c_credentials c)) ].

(** Rows of [information_schema.columns] as the introspection query
    selects them: column_name, data_type, character_maximum_length. *)
Definition Row : Type := string * string * option Z.

Record Cursor : Type := mkCursor {
  cursor_conn : string;
  cursor_sql : string;
  cursor_rows : list Row
}.

(** What reaches the driver, in order. *)
Inductive Event : Type :=
| EvOpenConnection (c : Connection)
| EvExecute (conn_name : string) (sql : string)
| EvCommit (conn_name : string)
| EvRollback (conn_name : string)
| EvClose (conn_name : string)
| EvAlterColumnType (schema table : pyval) (column new_type : string).

Record World : Type := mkWorld {
  connection_cache : gmap string loc;
  heap : list Connection;
  trace : list Event
}.

Definition empty_world : World := mkWorld ∅ [] [].

(** State and exceptions; the state survives a raise, as in Python. *)
Definition M (A : Type) : Type := World -> Result A * World.

Definition ret {A : Type} (a : A) : M A := fun w => (Ok a, w).
Definition raise {A : Type} (e : exn) : M A := fun w => (Raise e, w).
Definition bind {A B : Type} (m : M A) (f : A -> M B) : M B :=
  fun w => match m w with
           | (Ok a, w') => f a w'
           | (Raise e, w') => (Raise e, w')
           end.
Definition lift {A : Type} (r : Result A) : M A := fun w => (r, w).
Definition get_world : M World := fun w => (Ok w, w).
Definition put_world (w : World) : M unit := fun _ => (Ok tt, w).

Notation "x <- c1 ;; c2" := (bind c1 (fun x => c2))
  (at level 100, c1 at next level, right associativity).
Notation "c1 ;;; c2" := (bind c1 (fun _ => c2))
  (at level 100, right associativity).

Definition emit (e : Event) : M unit :=
  fun w => (Ok tt, mkWorld (connection_cache w) (heap w) (trace w ++ [e])).

Definition cache_lookup (name : string) : M (option loc) :=
  fun w => (Ok (connection_cache w !! name), w).

Definition cache_store (name : string) (l : loc) : M unit :=
  fun w => (Ok tt, mkWorld (<[name := l]> (connection_cache w)) (heap w)
                           (trace w)).

Definition alloc (c : Connection) : M loc :=
  fun w => (Ok (length (heap w)),
            mkWorld (connection_cache w) (heap w ++ [c]) (trace w)).

(** Reading through a reference; a reference always designates a live
    object in Python, the [None] case is there for totality. *)
Definition deref (l : loc) : M Connection :=
  fun w => match heap w !! l with
           | Some c => (Ok c, w)
           | None => (Raise (RuntimeError "dangling reference"), w)
           end.

Definition store (l : loc) (c : Connection) : M unit :=
  fun w => (Ok tt, mkWorld (connection_cache w) (<[l := c]> (heap w))
                           (trace w)).

(** ** The adapter contract

    [DefaultAdapter] leaves these to every concrete adapter (its own
    versions raise [NotImplementedException]); the driver behind a
    connection handle, the strict-mode flag with the connection contract,
    the YAML decoder and [dbt.schema.Column] are external to the three
    modules and are taken with the adapter. The driver may answer
    according to everything it has been asked so far. *)

Record Column : Type := mkColumn {
  col_name : string;
  col_data_type : string;
  col_char_size : option Z
}.

Class Adapter : Type := {
  adapter_type : Result string;
  get_status : Cursor -> Result string;
  open_connection : Connection -> Result Connection;
  exception_handler : string -> string -> exn -> exn;
  drv_execute : list Event -> Connection -> string -> Result Cursor;
  drv_commit : list Event -> Connection -> Result unit;
  drv_rollback : list Event -> Connection -> Result unit;
  drv_close : list Event -> Connection -> Result unit;
  alter_column_type :
    pydict -> pyval -> pyval -> string -> string -> option string ->
    Result unit;
  STRICT_MODE : bool;
  validate_connection : Connection -> Result unit;
  yaml_safe_load : string -> Result pyval;
  can_expand_to : Column -> Column -> bool;
  string_size : Column -> Result Z;
  string_type : Z -> string
}.

(** ** Dictionaries by reference

    A profile reaches [acquire_connection] as a reference to the
    caller's dictionary, and [dict.pop] works in place. The store holds
    the dictionaries alive; a reference is an index into it. *)
Definition dref := nat.
Definition Dicts : Type := list pydict.

(** [copy.deepcopy(d)]: a new dictionary, equal to the old one. *)
Definition deepcopy_dict (r : dref) (s : Dicts) : option (dref * Dicts) :=
  match s !! r with
  | Some d => Some (length s, (s ++ [deepcopy d])%list)
  | None => None
  end.

(** [d.pop(key, None)] *)
Definition pop_dict (key : string) (r : dref) (s : Dicts) : Dicts :=
  alter (dict_pop key) r s.

(** [sys.getrecursionlimit()] of CPython. *)
Definition recursion_limit : nat := 1000.

Section DefaultAdapter.
Context `{A : Adapter}.

Definition strict_validate (c : Connection) : M unit :=
  if STRICT_MODE then lift (validate_connection c) else ret tt.

(** [acquire_connection] up to the contract check, on the caller's
    dictionary: the credentials are a deep copy of the profile, the two
    keys are popped from that copy, and the record is built around it.
    The result is the reference of the credentials dictionary with the
    record as it stands then. *)
Definition acquire_connection_record (profile : dref) (name : string)
    (s : Dicts) : Result (dref * Connection) * Dicts :=
  match deepcopy_dict profile s with
  | None => (Raise (RuntimeError "dangling reference"), s)
  | Some (credentials, s) =>
      let s := pop_dict "type" credentials s in
      let s := pop_dict "threads" credentials s in
      match s !! credentials with
      | None => (Raise (RuntimeError "dangling reference"), s)
      | Some content =>
          (rbind adapter_type (fun ty =>
           Ok (credentials,
               mkConnection ty name "init" false None content)), s)
      end
  end.

(** The same for a caller whose profile is the only dictionary alive:
    the profile as the call leaves it, and the record handed to
    [open_connection]. *)
Definition acquire_connection_result (profile : pydict) (name : string)
  : Result (pydict * Connection) :=
  match acquire_connection_record 0 name [profile] with
  | (Ok (_, result), s) =>
      match s !! 0 with
      | Some profile => Ok (profile, result)
      | None => Raise (RuntimeError "dangling reference")
      end
  | (Raise e, _) => Raise e
  end.

Definition acquire_connection (profile : pydict) (name : string)
  : M Connection :=
  pr <- lift (acquire_connection_result profile name) ;;
  let result := snd pr in
  strict_validate result ;;;
  emit (EvOpenConnection result) ;;;
  lift (open_connection result).

(** [get_connection] ends with a call to itself, which finds the entry
    it has just stored (a connection dictionary has keys, so the cached
    entry is true); the recursion depth is bounded as in CPython. *)
Fixpoint get_connection_rec (depth : nat) (profile : pydict) (name : string)
  : M loc :=
  match depth with
  | O => raise RecursionError
  | S depth' =>
      cached <- cache_lookup name ;;
      match cached with
      | Some l => ret l
      | None =>
          lift adapter_type ;;;
          connection <- acquire_connection profile name ;;
          l <- alloc connection ;;
          cache_store name l ;;;
          get_connection_rec depth' profile name
      end
  end.

Definition get_connection (profile : pydict) (name : option string) : M loc :=
  let name := match name with None => "master" | Some n => n end in
  get_connection_rec recursion_limit profile name.

(** [reload] *)
Definition reload (connection : Connection) : M loc :=
  get_connection (c_credentials connection) (Some (c_name connection)).

(** [add_query]: the body of the [with] block runs under the adapter's
    exception handler. *)
Definition add_query (profile : pydict) (sql : string)
    (model_name : option string) : M (loc * Cursor) :=
  l <- get_connection profile model_name ;;
  connection <- deref l ;;
  let connection_name := c_name connection in
  lift adapter_type ;;;
  fun w =>
    let handled :=
      (w0 <- get_world ;;
       cursor <- lift (drv_execute (trace w0) connection sql) ;;
       emit (EvExecute connection_name sql) ;;;
       lift (get_status cursor) ;;;
       ret (l, cursor)) in
    match handled w with
    | (Ok r, w') => (Ok r, w')
    | (Raise e, w') => (Raise (exception_handler sql connection_name e), w')
    end.

Definition begin (profile : pydict) (name : string) : M loc :=
  l <- get_connection profile (Some name) ;;
  connection <- deref l ;;
  strict_validate connection ;;;
  if c_transaction_open connection then
    raise (ProgrammingException
      ("Tried to begin a new transaction on connection " +:+
       char_str dquote +:+ c_name connection +:+ char_str dquote +:+
       ", but it already had one open!"))
  else
    add_query (connection_dict connection) "BEGIN" None ;;;
    connection <- deref l ;;
    store l (set_transaction_open true connection) ;;;
    cache_store name l ;;;
    ret l.

Definition commit (connection : Connection) : M loc :=
  strict_validate connection ;;;
  l <- reload connection ;;
  connection <- deref l ;;
  if negb (c_transaction_open connection) then
    raise (ProgrammingException
      ("Tried to commit transaction on connection " +:+
       char_str dquote +:+ c_name connection +:+ char_str dquote +:+
       ", but it does not have one open!"))
  else
    w0 <- get_world ;;
    lift (match c_handle connection with
          | Some _ => drv_commit (trace w0) connection
          | None => Raise (AttributeError "commit")
          end) ;;;
    emit (EvCommit (c_name connection)) ;;;
    connection <- deref l ;;
    store l (set_transaction_open false connection) ;;;
    cache_store (c_name connection) l ;;;
    ret l.

Definition rollback (connection : Connection) : M loc :=
  strict_validate connection ;;;
  l <- reload connection ;;
  connection <- deref l ;;
  if negb (c_transaction_open connection) then
    raise (ProgrammingException
      ("Tried to rollback transaction on connection " +:+
       char_str dquote +:+ c_name connection +:+ char_str dquote +:+
       ", but it does not have one open!"))
  else
    w0 <- get_world ;;
    lift (match c_handle connection with
          | Some _ => drv_rollback (trace w0) connection
          | None => Raise (AttributeError "rollback")
          end) ;;;
    emit (EvRollback (c_name connection)) ;;;
    connection <- deref l ;;
    store l (set_transaction_open false connection) ;;;
    cache_store (c_name connection) l ;;;
    ret l.

Definition close (connection : Connection) : M loc :=
  strict_validate connection ;;;
  l <- reload connection ;;
  connection <- deref l ;;
  w0 <- get_world ;;
  lift (match c_handle connection with
        | Some _ => drv_close (trace w0) connection
        | None => Raise (AttributeError "close")
        end) ;;;
  emit (EvClose (c_name connection)) ;;;
  connection <- deref l ;;
  store l (set_state "closed" connection) ;;;
  cache_store (c_name connection) l ;;;
  ret l.

(** [for x in xs: body], threading a loop-carried value. *)
Fixpoint for_each {X S : Type} (xs : list X) (body : S -> X -> M S) (s : S)
  : M S :=
  match xs with
  | [] => ret s
  | x :: xs' => s' <- body s x ;; for_each xs' body s'
  end.

Definition columns_query (schema_name table_name : pyval) : string :=
  let sql :=
    "select column_name, data_type, character_maximum_length" +:+
    char_str newline +:+
    "        from information_schema.columns" +:+ char_str newline +:+
    "        where table_name = '" +:+ py_str table_name +:+ "'" in
  match schema_name with
  | PNone => sql
  | _ => sql +:+ " AND table_schema = '" +:+ py_str schema_name +:+ "'"
  end.

Definition get_columns_in_table (profile : pydict)
    (schema_name table_name : pyval) (model_name : option string)
  : M (list Column) :=
  let sql := columns_query schema_name table_name in
  r <- add_query profile sql model_name ;;
  let data := cursor_rows (snd r) in
  ret ((fun row : Row =>
          let '(name, data_type, char_size) := row in
          mkColumn name data_type char_size) <$> data).

(** [{col.name: col for col in columns}] *)
Definition columns_by_name (columns : list Column) : list (string * Column) :=
  dict_update [] ((fun col => (col_name col, col)) <$> columns).

Definition get_missing_columns (profile : pydict)
    (from_schema from_table to_schema to_table : pyval)
    (model_name : option string) : M (list Column) :=
  from_cols <- get_columns_in_table profile from_schema from_table model_name ;;
  let from_columns := columns_by_name from_cols in
  to_cols <- get_columns_in_table profile to_schema to_table model_name ;;
  let to_columns := columns_by_name to_cols in
  let missing_columns : gset string :=
    list_to_set (fst <$> from_columns) ∖ list_to_set (fst <$> to_columns) in
  ret (snd <$> filter (fun kv => fst kv ∈ missing_columns) from_columns).

Definition expand_target_column_types (profile : pydict)
    (temp_table to_schema to_table : pyval) (model_name : option string)
  : M unit :=
  ref_cols <- get_columns_in_table profile PNone temp_table model_name ;;
  let reference_columns := columns_by_name ref_cols in
  tgt_cols <- get_columns_in_table profile to_schema to_table model_name ;;
  let target_columns := columns_by_name tgt_cols in
  for_each reference_columns
    (fun _ kv =>
       let '(column_name, reference_column) := kv in
       match dict_get column_name target_columns with
       | Some target_column =>
           if can_expand_to target_column reference_column then
             size <- lift (string_size reference_column) ;;
             let new_type := string_type size in
             lift (alter_column_type profile to_schema to_table column_name
                                     new_type model_name) ;;;
             emit (EvAlterColumnType to_schema to_table column_name new_type)
           else ret tt
       | None => ret tt
       end) tt.

(** The compiled node as [execute_model] reads it. *)
Record Model : Type := mkModel {
  model_name_of : option string;
  wrapped_sql : string
}.

Definition expand_target_column_types_params : list string :=
  ["profile"; "temp_table"; "to_schema"; "to_table"; "model_name"].

(** [call_expand_target_column_types] with the keyword call it makes. *)
Definition call_expand_target_column_types (profile : pydict) (model : Model)
    (kwargs : pyval) : M unit :=
  match kwargs with
  | PDict d =>
      let d := dict_update d
        [("profile", PDict profile);
         ("model_name", match model_name_of model with
                        | Some n => PStr n
                        | None => PNone
                        end)] in
      if forallb (fun kv => existsb (String.eqb (fst kv))
                              expand_target_column_types_params) d
      then
        match dict_get "temp_table" d, dict_get "to_schema" d,
              dict_get "to_table" d with
        | Some temp_table, Some to_schema, Some to_table =>
            expand_target_column_types profile temp_table to_schema to_table
                                       (model_name_of model)
        | _, _, _ =>
            raise (TypeError "missing required positional argument")
        end
      else raise (TypeError "got an unexpected keyword argument")
  | PSet _ => raise (TypeError "argument after ** must be a mapping")
  | _ => raise (AttributeError "update")
  end.

(** [func_map[function](kwargs)] *)
Definition dispatch_operation (profile : pydict) (model : Model)
    (function kwargs : pyval) : M unit :=
  if hashable function then
    match function with
    | PStr "expand_column_types_if_needed" =>
        call_expand_target_column_types profile model kwargs
    | _ => raise (KeyError (py_str function))
    end
  else raise (TypeError "unhashable type").

(** One turn of the loop of [execute_model]; [cursor] is unbound until
    the first statement has run. *)
Definition execute_part (profile : pydict) (model : Model)
    (cursor : option Cursor) (part : string) : M (option Cursor) :=
  match match_operation part with
  | Some instruction_string =>
      instruction <- lift (yaml_safe_load instruction_string) ;;
      function <- lift (py_getitem instruction "function") ;;
      kwargs <- lift (py_getitem instruction "args") ;;
      dispatch_operation profile model function kwargs ;;;
      ret cursor
  | None =>
      r <- add_query profile part (model_name_of model) ;;
      ret (Some (snd r))
  end.

Definition execute_model (profile : pydict) (model : Model) : M string :=
  let parts := re_split (wrapped_sql model) in
  cursor <- for_each parts (execute_part profile model) None ;;
  match cursor with
  | Some c => lift (get_status c)
  | None => raise (UnboundLocalError "cursor")
  end.

End DefaultAdapter.

(** ** [str.format] with named fields *)

Inductive format_mode : Type :=
| FText
| FOpen
| FField (name : string)
| FClose.

Fixpoint format_go (mode : format_mode) (out : string) (kwargs : pydict)
    (template : string) : Result string :=
  match template with
  | EmptyString =>
      match mode with
      | FText => Ok out
      | FClose => Raise (ValueError "Single '}' encountered in format string")
      | _ => Raise (ValueError "expected '}' before end of string")
      end
  | String c rest =>
      match mode with
      | FText =>
          if Ascii.eqb c "{" then format_go FOpen out kwargs rest
          else if Ascii.eqb c "}" then format_go FClose out kwargs rest
          else format_go FText (out +:+ char_str c) kwargs rest
      | FOpen =>
          if Ascii.eqb c "{"
          then format_go FText (out +:+ char_str c) kwargs rest
          else if Ascii.eqb c "}"
          then Raise (IndexError "tuple index out of range")
          else format_go (FField (char_str c)) out kwargs rest
      | FField name =>
          if Ascii.eqb c "}" then
            match dict_get name kwargs with
            | Some v => format_go FText (out +:+ py_str v) kwargs rest
            | None => Raise (KeyError name)
            end
          else format_go (FField (name +:+ char_str c)) out kwargs rest
      | FClose =>
          if Ascii.eqb c "}"
          then format_go FText (out +:+ char_str c) kwargs rest
          else Raise (ValueError "Single '}' encountered in format string")
      end
  end.

Definition py_format (template : string) (kwargs : pydict) : Result string :=
  format_go FText "" kwargs template.

(** [v == s] for a string literal [s]. *)
Definition py_eq_str (v : pyval) (s : string) : bool :=
  match v with
  | PStr t => String.eqb t s
  | _ => false
  end.

(** [literal + v] for a string literal on the left. *)
Definition str_add (s : string) (v : pyval) : Result string :=
  match v with
  | PStr t => Ok (s +:+ t)
  | _ => Raise (TypeError "can only concatenate str to str")
  end.

(** Iteration over a value, as a list comprehension does it. *)
Fixpoint string_chars (s : string) : list pyval :=
  match s with
  | EmptyString => []
  | String c s' => PStr (char_str c) :: string_chars s'
  end.

Definition py_iter (v : pyval) : Result (list pyval) :=
  match v with
  | PList l | PSet l => Ok l
  | PStr s => Ok (string_chars s)
  | PDict d => Ok (map (fun kv => PStr (fst kv)) d)
  | _ => Raise (TypeError "object is not iterable")
  end.

(** [str.isspace] on one character, the characters of a string being
    the code points below 256: the ASCII white space and separators,
    NEL (133) and the no-break space (160). *)
Definition is_py_space (c : ascii) : bool :=
  let n := nat_of_ascii c in
  ((9 <=? n) && (n <=? 13) || (28 <=? n) && (n <=? 32) ||
   (n =? 133) || (n =? 160))%nat.

(** [len(s.strip()) == 0] *)
Fixpoint strip_is_empty (s : string) : bool :=
  match s with
  | EmptyString => true
  | String c s' => is_py_space c && strip_is_empty s'
  end.

Definition lines (l : list string) : string := join (char_str newline) l.

(** ** The template client ([dbt/clients/jinja.py])

    jinja2 itself is an external library. A template is taken as the
    sequence of things its rendering does to the context: calls of
    global names, and special methods invoked on the value standing for
    an unresolved name. What the parser's context functions do with
    those calls is modelled from [parser.py]. *)

Inductive TemplateOp : Type :=
| TCall (name : string) (args : list pyval) (kwargs : pydict)
| TUndefined (name : string) (method : string).

(** What [parser.py] imports from modules that are not part of the three
    files: node type names, path helpers, [SourceConfig], and jinja2. *)
Class ParserEnv : Type := {
  NodeType_Model : string;
  NodeType_Test : string;
  NodeType_Macro : string;
  NodeType_Archive : string;
  split_path : pyval -> Result (list string);
  splitext : string -> string * string;
  get_pseudo_test_path : string -> pyval -> string -> Result string;
  SourceConfig : Type;
  SourceConfig_init : pyval -> pyval -> list pyval -> Result SourceConfig;
  update_in_model_config : pyval -> SourceConfig -> Result SourceConfig;
  SourceConfig_config : SourceConfig -> Result pydict;
  jinja_from_string : string -> Result (list TemplateOp);
  jinja_output : string -> list pyval -> string;
  jinja2_Undefined : string -> string -> Result pyval
}.

(** The methods [SilentUndefined] rebinds to its own
    [_fail_with_undefined_error]. *)
Definition SilentUndefined_methods : list string :=
  ["__add__"; "__radd__"; "__mul__"; "__rmul__"; "__div__"; "__rdiv__";
   "__truediv__"; "__rtruediv__"; "__floordiv__"; "__rfloordiv__";
   "__mod__"; "__rmod__"; "__pos__"; "__neg__"; "__call__";
   "__getitem__"; "__lt__"; "__le__"; "__gt__"; "__ge__"; "__int__";
   "__float__"; "__complex__"; "__pow__"; "__rpow__";
   "_fail_with_undefined_error"].

(** The way a name of the render context behaves when called. *)
Inductive CtxEntry : Type :=
| CtxEmptyLambda
| CtxConfig
| CtxProperty
| CtxStr (s : string).

Section Jinja.
Context `{P : ParserEnv}.

(** What a render can reach: the node dictionary that [parse_node]
    shares with the closure made by [__config], the source config that
    closure updates, and standard output. *)
Record RenderState : Type := mkRenderState {
  rs_node : pydict;
  rs_config : SourceConfig;
  rs_stdout : list string
}.

Definition R (X : Type) : Type := RenderState -> Result X * RenderState.

Definition rret {X : Type} (x : X) : R X := fun st => (Ok x, st).
Definition rraise {X : Type} (e : exn) : R X := fun st => (Raise e, st).
Definition rthen {X Y : Type} (m : R X) (f : X -> R Y) : R Y :=
  fun st => match m st with
            | (Ok x, st') => f x st'
            | (Raise e, st') => (Raise e, st')
            end.
Definition rlift {X : Type} (r : Result X) : R X := fun st => (r, st).

(** [cb]: prints the node's name and the undefined name. *)
Definition cb (node : pydict) (var : string) : R pyval :=
  fun st =>
    match dict_get "name" node with
    | Some n =>
        (Ok PNone,
         mkRenderState (rs_node st) (rs_config st)
           (rs_stdout st ++
            ["UNDEFINED: model=" +:+ py_str n +:+ " name=" +:+ var]))
    | None => (Raise (KeyError "name"), st)
    end.

(** A special method of the undefined value made by
    [get_undefined_value node cb] when [silent], of jinja2's own
    [Undefined] otherwise. *)
Definition undefined_method (silent : bool) (node : pydict)
    (name method : string) : R pyval :=
  if silent && existsb (String.eqb method) SilentUndefined_methods
  then cb node name
  else rlift (jinja2_Undefined name method).

(** [__config(model, cfg)], [model] being the shared node. *)
Definition config_call (args : list pyval) (kwargs : pydict) : R pyval :=
  rthen (match args, kwargs with
         | [opts], [] => rret opts
         | [], _ :: _ => rret (PDict kwargs)
         | _, _ =>
             fun st =>
               let model := rs_node st in
               (Raise (CompilerError (py_get model "name")
                         ("Invalid model config given inline in " +:+
                          py_repr (PDict model))), st)
         end)
    (fun opts st =>
       match update_in_model_config opts (rs_config st) with
       | Ok cfg => (Ok PNone, mkRenderState (rs_node st) cfg (rs_stdout st))
       | Raise e => (Raise e, st)
       end).

Definition call_entry (e : CtxEntry) (args : list pyval) (kwargs : pydict)
  : R pyval :=
  match e with
  | CtxEmptyLambda =>
      match kwargs with
      | [] => rret (PStr "")
      | _ => rraise (TypeError "<lambda>() got an unexpected keyword argument")
      end
  | CtxConfig => config_call args kwargs
  | CtxProperty => rraise (TypeError "'property' object is not callable")
  | CtxStr _ => rraise (TypeError "'str' object is not callable")
  end.

(** One operation of a template. A call of a name the context lacks
    goes to [__call__] of the undefined value; the attribute probes the
    jinja2 sandbox makes on a value before calling it, which reach the
    undefined value as well, are inside jinja2 and are not part of an
    operation here. *)
Definition run_op (silent : bool) (ctx : list (string * CtxEntry))
    (node : pydict) (op : TemplateOp) : R pyval :=
  match op with
  | TCall name args kwargs =>
      match dict_get name ctx with
      | Some e => call_entry e args kwargs
      | None => undefined_method silent node name "__call__"
      end
  | TUndefined name method => undefined_method silent node name method
  end.

Fixpoint run_ops (silent : bool) (ctx : list (string * CtxEntry))
    (node : pydict) (ops : list TemplateOp) : R (list pyval) :=
  match ops with
  | [] => rret []
  | op :: ops' =>
      rthen (run_op silent ctx node op) (fun v =>
      rthen (run_ops silent ctx node ops') (fun vs =>
      rret (v :: vs)))
  end.

(** The two jinja2 errors the client catches are raised again through
    [dbt.exceptions.raise_compiler_error], which is outside the three
    files: a compiler error carrying the node's name and the message. *)
Definition as_compiler_error (node : pydict) (e : exn) : exn :=
  match e with
  | TemplateSyntaxError msg | UndefinedError msg =>
      CompilerError (py_get node "name") msg
  | _ => e
  end.

(** [get_rendered], [get_template] included; [dbt.compat.to_string]
    is taken to be [str]. *)
Definition get_rendered (string_ : pyval) (ctx : list (string * CtxEntry))
    (node : pydict) (silent_on_undefined : bool) : R string :=
  fun st =>
    let text := py_str string_ in
    match jinja_from_string text with
    | Raise e => (Raise (as_compiler_error node e), st)
    | Ok ops =>
        match run_ops silent_on_undefined ctx node ops st with
        | (Ok vs, st') => (Ok (jinja_output text vs), st')
        | (Raise e, st') => (Raise (as_compiler_error node e), st')
        end
    end.

Definition get_rendered_keywords : list string :=
  ["string"; "ctx"; "node"; "silent_on_undefined"].

(** A call [get_rendered(string, ctx, node, **keywords)]: Python binds
    keywords to parameter names before the body runs. *)
Definition call_get_rendered (string_ : pyval)
    (ctx : list (string * CtxEntry))
    (node : pydict) (keywords : list (string * bool)) : R string :=
  match List.find (fun kw => negb (existsb (String.eqb (fst kw))
                                            get_rendered_keywords))
                  keywords with
  | Some kw =>
      rraise (TypeError ("get_rendered() got an unexpected keyword argument '"
                         +:+ fst kw +:+ "'"))
  | None =>
      if existsb (fun kw => existsb (String.eqb (fst kw))
                                    ["string"; "ctx"; "node"]) keywords
      then rraise (TypeError "get_rendered() got multiple values for argument")
      else
        get_rendered string_ ctx node
          (match dict_get "silent_on_undefined" keywords with
           | Some b => b
           | None => false
           end)
  end.

End Jinja.

(** ** The parser ([dbt/parser.py]) *)

Definition QUERY_VALIDATE_NOT_NULL : string :=
  lines [""; "with validation as ("; "  select {field} as f";
         "  from {ref}"; ")";
         "select count(" +:+ "*" +:+ ") from validation where f is null";
         ""].

Definition QUERY_VALIDATE_UNIQUE : string :=
  lines [""; "with validation as ("; "  select {field} as f";
         "  from {ref}"; "  where {field} is not null"; "),";
         "validation_errors as (";
         "    select f from validation group by f having count(" +:+ "*" +:+
           ") > 1";
         ")"; "select count(" +:+ "*" +:+ ") from validation_errors"; ""].

Definition QUERY_VALIDATE_ACCEPTED_VALUES : string :=
  lines [""; "with all_values as ("; "  select distinct {field} as f";
         "  from {ref}"; "),"; "validation_errors as (";
         "    select f from all_values where f not in ({values_csv})";
         ")"; "select count(" +:+ "*" +:+ ") from validation_errors"; ""].

Definition QUERY_VALIDATE_REFERENTIAL_INTEGRITY : string :=
  lines [""; "with parent as ("; "  select {parent_field} as id";
         "  from {parent_ref}"; "), child as (";
         "  select {child_field} as id"; "  from {child_ref}"; ")";
         "select count(" +:+ "*" +:+ ") from child";
         "where id not in (select id from parent) and id is not null"; ""].

Section Parser.
Context `{P : ParserEnv}.

Definition get_path (resource_type package_name resource_name : pyval)
  : string :=
  py_str resource_type +:+ "." +:+ py_str package_name +:+ "." +:+
  py_str resource_name.

Definition get_model_path (package_name resource_name : pyval) : string :=
  get_path (PStr NodeType_Model) package_name resource_name.

Definition get_test_path (package_name resource_name : pyval) : string :=
  get_path (PStr NodeType_Test) package_name resource_name.

Definition get_macro_path (package_name resource_name : pyval) : string :=
  get_path (PStr "macros") package_name resource_name.

(** [obj.get(key)] on a value that must be a mapping. *)
Definition py_dict_get (obj : pyval) (key : string) : Result pyval :=
  match obj with
  | PDict d => Ok (py_get d key)
  | _ => Raise (AttributeError "get")
  end.

Definition get_fqn (path package_project_config : pyval)
    (extra : list pyval) : Result (list pyval) :=
  rbind (split_path path) (fun parts =>
  match List.last (map Some parts) None with
  | None => Raise (IndexError "list index out of range")
  | Some final =>
      let name := fst (splitext final) in
      rbind (py_dict_get package_project_config "name") (fun package =>
      Ok ([package] ++ map PStr (removelast parts) ++ extra ++ [PStr name])%list)
  end).

(** The render context [parse_node] builds. *)
Definition parse_node_context : list (string * CtxEntry) :=
  [("ref", CtxEmptyLambda); ("config", CtxConfig); ("var", CtxEmptyLambda);
   ("target", CtxProperty); ("this", CtxStr "")].

(** [parse_node] up to the render: the copied node with its fresh
    [depends_on], the fqn and the source config. *)
Definition parse_node_prepare (node : pydict)
    (root_project_config package_project_config : pyval)
    (fqn_extra : option (list pyval))
  : Result (pydict * list pyval * SourceConfig) :=
  let node := deepcopy node in
  let fqn_extra := match fqn_extra with Some e => e | None => [] end in
  let node :=
    dict_update node
      [("depends_on", PDict [("nodes", PList []); ("macros", PList [])])] in
  rbind (get_fqn (py_get node "path") package_project_config fqn_extra)
    (fun fqn =>
  rbind (SourceConfig_init root_project_config package_project_config fqn)
    (fun config =>
  Ok (node, fqn, config))).

(** [parse_node] after the render. *)
Definition parse_node_finish (node : pydict) (node_path : string)
    (fqn : list pyval) (tags : option (list pyval)) (config : SourceConfig)
  : Result pydict :=
  let tags := match tags with Some t => t | None => [] end in
  match py_get_default node "config" (PDict []) with
  | PDict config_dict =>
      rbind (SourceConfig_config config) (fun cfg =>
      let config_dict := dict_update config_dict cfg in
      let node := dict_set "unique_id" (PStr node_path) node in
      let node := dict_set "config" (PDict config_dict) node in
      match py_get node "raw_sql" with
      | PStr raw_sql =>
          let node := dict_set "empty" (PBool (strip_is_empty raw_sql)) node in
          let node := dict_set "fqn" (PList fqn) node in
          let node := dict_set "tags" (PSet tags) node in
          Ok node
      | _ => Raise (AttributeError "strip")
      end)
  | _ => Raise (AttributeError "update")
  end.

(** [parse_node]: the node it returns and what the render printed. *)
Definition parse_node (node : pydict) (node_path : string)
    (root_project_config package_project_config all_projects : pyval)
    (tags : option (list pyval)) (fqn_extra : option (list pyval))
  : Result pydict * list string :=
  match parse_node_prepare node root_project_config package_project_config
                           fqn_extra with
  | Raise e => (Raise e, [])
  | Ok (node, fqn, config) =>
      let context := parse_node_context in
      match call_get_rendered (py_get node "raw_sql") context node
              [("capture_macros", true)] (mkRenderState node config []) with
      | (Raise e, st) => (Raise e, rs_stdout st)
      | (Ok _, st) =>
          (parse_node_finish (rs_node st) node_path fqn tags (rs_config st),
           rs_stdout st)
      end
  end.

(** The reference [parse_schema_test] writes into the test's SQL. *)
Definition ref_of (model_name : pyval) : Result string :=
  rbind (str_add "{{ref('" model_name) (fun s => Ok (s +:+ "')}}")).

(** The branches of [parse_schema_test]: [None] for a skipped config,
    else the raw SQL and the name key. *)
Definition schema_test_sql (model_name test_config test_type : pyval)
  : Result (option (string * pyval)) :=
  if py_eq_str test_type "not_null" then
    rbind (ref_of model_name) (fun r =>
    rbind (py_format QUERY_VALIDATE_NOT_NULL
             [("ref", PStr r); ("field", test_config)]) (fun raw_sql =>
    Ok (Some (raw_sql, test_config))))
  else if py_eq_str test_type "unique" then
    rbind (ref_of model_name) (fun r =>
    rbind (py_format QUERY_VALIDATE_UNIQUE
             [("ref", PStr r); ("field", test_config)]) (fun raw_sql =>
    Ok (Some (raw_sql, test_config))))
  else if py_eq_str test_type "relationships" then
    match test_config with
    | PDict d =>
        let child_field := py_get d "from" in
        let parent_field := py_get d "field" in
        let parent_model := py_get d "to" in
        rbind (ref_of model_name) (fun child_ref =>
        rbind (ref_of parent_model) (fun parent_ref =>
        rbind (py_format QUERY_VALIDATE_REFERENTIAL_INTEGRITY
                 [("child_field", child_field);
                  ("child_ref", PStr child_ref);
                  ("parent_field", parent_field);
                  ("parent_ref", PStr parent_ref)]) (fun raw_sql =>
        Ok (Some (raw_sql,
                  PStr (py_str child_field +:+ "_to_" +:+
                        py_str parent_model +:+ "_" +:+
                        py_str parent_field))))))
    | _ => Ok None
    end
  else if py_eq_str test_type "accepted_values" then
    match test_config with
    | PDict d =>
        rbind (ref_of model_name) (fun r =>
        rbind (py_iter (py_get_default d "values" (PList []))) (fun values =>
        let values_csv :=
          "'" +:+ join "','" (map py_str values) +:+ "'" in
        rbind (py_format QUERY_VALIDATE_ACCEPTED_VALUES
                 [("ref", PStr r);
                  ("field", py_get_default d "field" (PStr ""));
                  ("values_csv", PStr values_csv)]) (fun raw_sql =>
        Ok (Some (raw_sql, py_get d "field")))))
    | _ => Ok None
    end
  else
    Raise (ValidationException
             ("Unknown schema test type " +:+ py_str test_type)).

(** The synthetic definition [parse_schema_test] hands to [parse_node],
    with the path it is given. *)
Definition schema_test_definition (test_base : pydict)
    (model_name test_config test_type : pyval)
  : Result (option (pydict * string)) :=
  rbind (schema_test_sql model_name test_config test_type) (fun r =>
  match r with
  | None => Ok None
  | Some (raw_sql, name_key) =>
      let name := py_str test_type +:+ "_" +:+ py_str model_name +:+ "_" +:+
                  py_str name_key in
      rbind (get_pseudo_test_path name (py_get test_base "path") "schema_test")
        (fun pseudo_path =>
      let to_return :=
        [("name", PStr name);
         ("resource_type", py_get test_base "resource_type");
         ("package_name", py_get test_base "package_name");
         ("root_path", py_get test_base "root_path");
         ("path", PStr pseudo_path);
         ("raw_sql", PStr raw_sql)] in
      Ok (Some (to_return,
                get_test_path (py_get test_base "package_name") (PStr name))))
  end).

Definition parse_schema_test (test_base : pydict)
    (model_name test_config test_type : pyval)
    (root_project_config package_project_config all_projects : pyval)
  : Result (option pydict) * list string :=
  match schema_test_definition test_base model_name test_config test_type with
  | Raise e => (Raise e, [])
  | Ok None => (Ok None, [])
  | Ok (Some (to_return, node_path)) =>
      match parse_node to_return node_path root_project_config
              package_project_config all_projects
              (Some [PStr "schema"]) None with
      | (Ok node, out) => (Ok (Some node), out)
      | (Raise e, out) => (Raise e, out)
      end
  end.

End Parser.

(** ** Compiled SQL as text around operation markers *)

(** What one turn of the loop of [execute_model] does with a part:
    [add_query] on it, or the dispatch of the instruction it carries. *)
Inductive Action : Type :=
| RunStatement (sql : string)
| RunOperation (instruction : string).

Definition classify_part (part : string) : Action :=
  match match_operation part with
  | Some instruction => RunOperation instruction
  | None => RunStatement part
  end.

Definition execute_model_actions (model : Model) : list Action :=
  classify_part <$> re_split (wrapped_sql model).



(** Statements and marker lines, one per line. *)
Inductive Segment : Type :=
| Statement (sql : string)
| Marker (instruction : string).

Definition segment_text (s : Segment) : string :=
  match s with
  | Statement sql => sql
  | Marker instruction => marker_start +:+ instruction
  end.

Definition wrapped_of (segments : list Segment) : string :=
  join (char_str newline) (segment_text <$> segments).


(** A text, then markers each followed by a text: [t0], and for every
    marker the instruction on its line with the text up to the next
    marker. *)
Fixpoint compose_tail (rest : list (string * string)) : string :=
  match rest with
  | [] => ""
  | (instruction, text) :: rest' =>
      marker_start +:+ instruction +:+ text +:+ compose_tail rest'
  end.

Definition compose_document (t0 : string) (rest : list (string * string))
  : string :=
  t0 +:+ compose_tail rest.

Fixpoint has_marker (t : string) : bool :=
  match t with
  | EmptyString => false
  | String _ t' => String.prefix marker_start t || has_marker t'
  end.

(** No marker starts inside [t] when [t] is followed by [x]. *)
Fixpoint marker_free_before (t x : string) : bool :=
  match t with
  | EmptyString => true
  | String _ t' =>
      negb (String.prefix marker_start (t +:+ x)) && marker_free_before t' x
  end.


Definition whole_lines (t : string) : bool :=
  match t with
  | EmptyString => true
  | _ => ends_with_char newline t
  end.

Definition instruction_ok (g : string) : bool :=
  String.prefix "{" g && ends_with_char "}"%char g &&
  negb (contains_char newline g).







Section RunActions.
Context `{A : Adapter}.

(** The two branches of the loop body of [execute_model]. *)
Definition run_action (profile : pydict) (model : Model)
    (cursor : option Cursor) (a : Action) : M (option Cursor) :=
  match a with
  | RunOperation instruction_string =>
      instruction <- lift (yaml_safe_load instruction_string) ;;
      function <- lift (py_getitem instruction "function") ;;
      kwargs <- lift (py_getitem instruction "args") ;;
      dispatch_operation profile model function kwargs ;;;
      ret cursor
  | RunStatement sql =>
      r <- add_query profile sql (model_name_of model) ;;
      ret (Some (snd r))
  end.

Definition run_actions (profile : pydict) (model : Model)
    (actions : list Action) : M string :=
  cursor <- for_each actions (run_action profile model) None ;;
  match cursor with
  | Some c => lift (get_status c)
  | None => raise (UnboundLocalError "cursor")
  end.

End RunActions.

(** The text of the last statement among the actions, if any. *)
Definition last_statement (actions : list Action) : option string :=
  fold_left (fun acc a => match a with
                          | RunStatement sql => Some sql
                          | RunOperation _ => acc
                          end) actions None.

(** The cursor was handed out by the driver for this statement. *)
Definition cursor_of `{A : Adapter} (cursor : Cursor) (sql : string) : Prop :=
  exists tr conn, drv_execute tr conn sql = Ok cursor.

(** The contract check of strict mode lets the connection through. *)
Definition strict_ok `{A : Adapter} (c : Connection) : Prop :=
  STRICT_MODE = false \/ validate_connection c = Ok tt.


(** The loop-carried cursor is the one of the last statement so far. *)
Definition cursor_tracks `{A : Adapter} (cursor : option Cursor)
    (sql : option string)
  : Prop :=
  match cursor, sql with
  | None, None => True
  | Some c, Some q => cursor_of c q
  | _, _ => False
  end.




(** ** The rest of the default adapter *)

Definition quoted (s : string) : string :=
  char_str dquote +:+ s +:+ char_str dquote.

Section DefaultAdapterHelpers.
Context `{A : Adapter}.

(** [get_default_schema] *)
Definition get_default_schema (profile : pydict) : pyval :=
  py_get profile "schema".

Definition drop_view_sql (profile : pydict) (view : pyval) : string :=
  "drop view if exists " +:+ quoted (py_str (get_default_schema profile))
  +:+ "." +:+ quoted (py_str view) +:+ " cascade".

Definition drop_table_sql (profile : pydict) (table : pyval) : string :=
  "drop table if exists " +:+ quoted (py_str (get_default_schema profile))
  +:+ "." +:+ quoted (py_str table) +:+ " cascade".

Definition truncate_sql (profile : pydict) (table : pyval) : string :=
  "truncate table " +:+ quoted (py_str (get_default_schema profile))
  +:+ "." +:+ quoted (py_str table).

Definition rename_sql (profile : pydict) (from_name to_name : pyval)
  : string :=
  "alter table " +:+ quoted (py_str (get_default_schema profile))
  +:+ "." +:+ quoted (py_str from_name) +:+ " rename to " +:+
  quoted (py_str to_name).

Definition drop_view (profile : pydict) (view : pyval)
    (model_name : option string) : M unit :=
  add_query profile (drop_view_sql profile view) model_name ;;; ret tt.

Definition drop_table (profile : pydict) (table : pyval)
    (model_name : option string) : M unit :=
  add_query profile (drop_table_sql profile table) model_name ;;; ret tt.

Definition truncate (profile : pydict) (table : pyval)
    (model_name : option string) : M unit :=
  add_query profile (truncate_sql profile table) model_name ;;; ret tt.

Definition rename (profile : pydict) (from_name to_name : pyval)
    (model_name : option string) : M unit :=
  add_query profile (rename_sql profile from_name to_name) model_name ;;;
  ret tt.

Definition drop (profile : pydict) (relation relation_type : pyval)
    (model_name : option string) : M unit :=
  if py_eq_str relation_type "view" then drop_view profile relation model_name
  else if py_eq_str relation_type "table"
  then drop_table profile relation model_name
  else raise (RuntimeError ("Invalid relation_type '" +:+
                            py_str relation_type +:+ "'")).

(** [get_create_schema_sql] and [create_schema] *)
Definition get_create_schema_sql (schema : pyval) : string :=
  "create schema if not exists " +:+ quoted (py_str schema).

Definition create_schema (profile : pydict) (schema : pyval)
    (model_name : option string) : M (loc * Cursor) :=
  add_query profile (get_create_schema_sql schema) model_name.

(** [execute_one] *)
Definition execute_one (profile : pydict) (sql : string)
    (model_name : option string) : M (loc * Cursor) :=
  get_connection profile model_name ;;;
  add_query profile sql model_name.

(** [execute_all] *)
Definition execute_all (profile : pydict) (sqls : list string)
    (model_name : option string) : M loc :=
  connection <- get_connection profile model_name ;;
  match sqls with
  | [] => ret connection
  | _ =>
      for_each sqls
        (fun _ sql => r <- add_query profile sql model_name ;; ret (fst r))
        connection
  end.

(** [cleanup_connections]: the debug lines it logs, then the emptied
    cache. The cache is enumerated in the order of the finite map, not
    in Python's insertion order. *)
Definition cleanup_message (name : string) (connection : Connection)
  : string :=
  if negb (String.eqb (c_state connection) "closed")
  then "Connection '" +:+ name +:+ "' was left open."
  else "Connection '" +:+ name +:+ "' was properly closed.".

(** The body of the loop of [cleanup_connections]. *)
Definition cleanup_step (logged : list string) (entry : string * loc)
  : M (list string) :=
  connection <- deref (snd entry) ;;
  ret (logged ++ [cleanup_message (fst entry) connection])%list.

Definition cleanup_connections : M (list string) :=
  w <- get_world ;;
  messages <- for_each (map_to_list (connection_cache w)) cleanup_step [] ;;
  w' <- get_world ;;
  put_world (mkWorld ∅ (heap w') (trace w')) ;;;
  ret messages.

End DefaultAdapterHelpers.

(** The lines [cleanup_connections] logs for the given cache entries. *)
Definition cleanup_lines (w : World) (entries : list (string * loc))
  : list string :=
  (fun entry => match heap w !! snd entry with
                | Some c => cleanup_message (fst entry) c
                | None => ""
                end) <$> entries.

(** The column alterations [expand_target_column_types] asks for. *)
Definition alter_events `{A : Adapter} (to_schema to_table : pyval)
    (reference_columns target_columns : list (string * Column))
  : list Event :=
  flat_map (fun kv =>
    match dict_get (fst kv) target_columns with
    | Some target_column =>
        if can_expand_to target_column (snd kv) then
          match string_size (snd kv) with
          | Ok size =>
              [EvAlterColumnType to_schema to_table (fst kv)
                                 (string_type size)]
          | Raise _ => []
          end
        else []
    | None => []
    end) reference_columns.

Definition with_event (w : World) (e : Event) : World :=
  mkWorld (connection_cache w) (heap w) (trace w ++ [e]).

Definition cached_name (model_name : option string) : string :=
  match model_name with None => "master" | Some n => n end.

(** The world [commit] and [rollback] leave: the flag cleared on the
    connection they reloaded, the connection under its name in the
    cache, and the driver call in the trace. *)
Definition end_transaction_world (w : World) (l : loc) (c : Connection)
    (e : Event) : World :=
  mkWorld (<[c_name c := l]> (connection_cache w))
          (<[l := set_transaction_open false c]> (heap w))
          (trace w ++ [e]).

(** Every entry of the cache refers to a stored connection, as every
    reference does in Python. *)
Definition cache_allocated (w : World) : Prop :=
  forall name l, connection_cache w !! name = Some l ->
                 is_Some (heap w !! l).

(** Putting the parts of the split back together: texts as they are,
    groups after the two dashes and the space the pattern consumed. *)
Fixpoint rejoin_text (parts : list string) : string :=
  match parts with
  | [] => ""
  | text :: rest => text +:+ rejoin_group rest
  end
with rejoin_group (parts : list string) : string :=
  match parts with
  | [] => ""
  | group :: rest => "-- " +:+ group +:+ rejoin_text rest
  end.

(** [parse_archives_from_project] *)
Section Archives.
Context `{P : ParserEnv}.

Definition archive_node (project archive_config table : pydict) : pydict :=
  let config := table in
  let config := dict_set "source_schema" (py_get archive_config "source_schema")
                         config in
  let config := dict_set "target_schema" (py_get archive_config "target_schema")
                         config in
  [("name", py_get table "target_table");
   ("root_path", py_get project "project-root");
   ("resource_type", PStr NodeType_Archive);
   ("path", py_get project "project-root");
   ("package_name", py_get project "name");
   ("config", PDict config);
   ("raw_sql", PStr "-- noop")].

Fixpoint archive_tables (project archive_config : pydict)
    (tables : list pyval) (archives : list pydict) : Result (list pydict) :=
  match tables with
  | [] => Ok archives
  | PDict table :: tables' =>
      archive_tables project archive_config tables'
        (archives ++ [archive_node project archive_config table])
  | _ :: _ => Raise (AttributeError "copy")
  end.

Fixpoint archive_configs_loop (project : pydict) (archive_configs : list pyval)
    (archives : list pydict) : Result (list pydict) :=
  match archive_configs with
  | [] => Ok archives
  | PDict archive_config :: rest =>
      match py_get archive_config "tables" with
      | PNone => archive_configs_loop project rest archives
      | tables =>
          rbind (py_iter tables) (fun tables =>
          rbind (archive_tables project archive_config tables archives)
            (fun archives => archive_configs_loop project rest archives))
      end
  | _ :: _ => Raise (AttributeError "get")
  end.

Definition parse_archives_from_project (project : pydict)
  : Result (list pydict) :=
  rbind (py_iter (py_get_default project "archive" (PList [])))
    (fun archive_configs => archive_configs_loop project archive_configs []).

End Archives.

(** The archive nodes of the tables of one archive config, and of all
    archive configs, in configuration order. *)
Definition table_nodes `{P : ParserEnv} (project archive_config : pydict)
    (tables : list pyval) : list pydict :=
  flat_map (fun t => match t with
                     | PDict table =>
                         [archive_node project archive_config table]
                     | _ => []
                     end) tables.

Definition config_nodes `{P : ParserEnv} (project : pydict)
    (archive_configs : list pyval) : list pydict :=
  flat_map (fun c =>
    match c with
    | PDict archive_config =>
        match py_get archive_config "tables" with
        | PNone => []
        | tables =>
            match py_iter tables with
            | Ok tables => table_nodes project archive_config tables
            | Raise _ => []
            end
        end
    | _ => []
    end) archive_configs.

(** ** A concrete adapter

    A Postgres-like adapter over a driver that always succeeds, used to
    run the definitions on concrete inputs. *)

Definition demo_operation : string :=
  "{function: expand_column_types_if_needed, args: {temp_table: orders__dbt_tmp, to_schema: analytics, to_table: orders}}".

Definition demo_instruction : pyval :=
  PDict [("function", PStr "expand_column_types_if_needed");
         ("args", PDict [("temp_table", PStr "orders__dbt_tmp");
                         ("to_schema", PStr "analytics");
                         ("to_table", PStr "orders")])].

Definition demo_rows (sql : string) : list Row :=
  if String.eqb sql (columns_query PNone (PStr "orders__dbt_tmp")) then
    [("a", "character varying", Some 20%Z); ("b", "integer", None);
     ("c", "text", None)]
  else if String.eqb sql (columns_query (PStr "analytics") (PStr "orders"))
  then [("a", "character varying", Some 10%Z); ("c", "text", None)]
  else [].

Definition demo_is_string (c : Column) : bool :=
  String.eqb (col_data_type c) "character varying".

Definition demo_adapter : Adapter := {|
  adapter_type := Ok "postgres";
  get_status := fun c => Ok ("OK: " +:+ cursor_sql c);
  open_connection := fun c =>
    Ok (mkConnection (c_type c) (c_name c) "open" (c_transaction_open c)
                     (Some 1) (c_credentials c));
  exception_handler := fun sql name e => e;
  drv_execute := fun _ c sql => Ok (mkCursor (c_name c) sql (demo_rows sql));
  drv_commit := fun _ _ => Ok tt;
  drv_rollback := fun _ _ => Ok tt;
  drv_close := fun _ _ => Ok tt;
  alter_column_type := fun _ _ _ _ _ _ => Ok tt;
  STRICT_MODE := false;
  validate_connection := fun _ => Ok tt;
  yaml_safe_load := fun s =>
    if String.eqb s demo_operation then Ok demo_instruction
    else Raise (RuntimeError "yaml");
  can_expand_to := fun target reference =>
    demo_is_string target && demo_is_string reference &&
    match col_char_size target, col_char_size reference with
    | Some t, Some r => (t <? r)%Z
    | _, _ => false
    end;
  string_size := fun c =>
    match col_char_size c with
    | Some n => Ok n
    | None => Raise (RuntimeError "not a string column")
    end;
  string_type := fun n => "character varying(" +:+ pretty n +:+ ")"
|}.

Definition demo_profile : pydict :=
  [("type", PStr "postgres"); ("threads", PInt 4); ("host", PStr "localhost");
   ("user", PStr "dbt"); ("schema", PStr "analytics")].

Definition demo_world_idle : World :=
  snd (get_connection (A:=demo_adapter) demo_profile None empty_world).

Definition demo_world_begun : World :=
  snd (begin (A:=demo_adapter) demo_profile "master" empty_world).

Definition demo_credentials : pydict :=
  [("host", PStr "localhost"); ("user", PStr "dbt");
   ("schema", PStr "analytics")].

Definition demo_connection (transaction_open : bool) : Connection :=
  mkConnection "postgres" "master" "open" transaction_open (Some 1)
               demo_credentials.

(** ** A concrete parser environment

    Slash-separated paths, a source config that keeps the inline options,
    and a template reader that finds the [ref('...')] calls of a text and
    one arithmetic use of an unresolved name. *)

Fixpoint split_on (sep : ascii) (cur : string) (s : string) : list string :=
  match s with
  | EmptyString => [cur]
  | String c s' =>
      if Ascii.eqb c sep then cur :: split_on sep "" s'
      else split_on sep (cur +:+ char_str c) s'
  end.

Fixpoint splitext_go (s : string) : option (string * string) :=
  match s with
  | EmptyString => None
  | String c s' =>
      match splitext_go s' with
      | Some (root, ext) => Some (String c root, ext)
      | None => if Ascii.eqb c "." then Some ("", s) else None
      end
  end.

Inductive scan_mode : Type :=
| Scan
| ScanSkip (n : nat)
| ScanName (name : string).

Fixpoint scan_template (mode : scan_mode) (s : string) : list TemplateOp :=
  match s with
  | EmptyString => []
  | String c s' =>
      match mode with
      | Scan =>
          if String.prefix "ref('" s then scan_template (ScanSkip 3) s'
          else if String.prefix "undefined_name + 1" s
          then TUndefined "undefined_name" "__add__" :: scan_template Scan s'
          else scan_template Scan s'
      | ScanSkip (S n) => scan_template (ScanSkip n) s'
      | ScanSkip O => scan_template (ScanName "") s'
      | ScanName name =>
          if Ascii.eqb c squote
          then TCall "ref" [PStr name] [] :: scan_template Scan s'
          else scan_template (ScanName (name +:+ char_str c)) s'
      end
  end.

Definition demo_split_path (path : pyval) : Result (list string) :=
  match path with
  | PStr s => Ok (split_on "/" "" s)
  | _ => Raise (AttributeError "split")
  end.

Definition demo_parser : ParserEnv := {|
  NodeType_Model := "model";
  NodeType_Test := "test";
  NodeType_Macro := "macro";
  NodeType_Archive := "archive";
  split_path := demo_split_path;
  splitext := fun s =>
    match splitext_go s with Some r => r | None => (s, "") end;
  get_pseudo_test_path := fun name path kind =>
    rbind (demo_split_path path) (fun parts =>
    Ok (join "/" (removelast parts ++ [kind; name +:+ ".sql"])%list));
  SourceConfig := pydict;
  SourceConfig_init := fun _ _ _ => Ok [];
  update_in_model_config := fun opts cfg =>
    match opts with
    | PDict d => Ok (dict_update cfg d)
    | _ => Raise (AttributeError "items")
    end;
  SourceConfig_config := fun cfg => Ok cfg;
  jinja_from_string := fun text => Ok (scan_template Scan text);
  jinja_output := fun text _ => text;
  jinja2_Undefined := fun name method =>
    Raise (UndefinedError ("'" +:+ name +:+ "' is undefined"))
|}.

Definition demo_source_config : @SourceConfig demo_parser :=
  @nil (string * pyval).

Definition demo_render_state (node : pydict) (stdout : list string)
  : @RenderState demo_parser :=
  mkRenderState node demo_source_config stdout.

Definition demo_project : pyval := PDict [("name", PStr "analytics")].

Definition demo_model_node : pydict :=
  [("name", PStr "orders"); ("root_path", PStr "/project");
   ("resource_type", PStr "model"); ("path", PStr "orders.sql");
   ("package_name", PStr "analytics");
   ("raw_sql", PStr "select * from {{ ref('raw_orders') }}")].

Definition demo_undefined_node : pydict :=
  [("name", PStr "orders"); ("root_path", PStr "/project");
   ("resource_type", PStr "model"); ("path", PStr "orders.sql");
   ("package_name", PStr "analytics");
   ("raw_sql", PStr "select {{ undefined_name + 1 }}")].

Definition demo_test_base : pydict :=
  [("name", PStr "schema"); ("root_path", PStr "/project");
   ("resource_type", PStr "test"); ("path", PStr "models/schema.yml");
   ("package_name", PStr "analytics");
   ("raw_yml", PStr "orders: {constraints: {not_null: [order_id]}}")].

Definition unexpected_capture_macros : exn :=
  TypeError "get_rendered() got an unexpected keyword argument 'capture_macros'".

Definition empty_depends_on : pyval :=
  PDict [("nodes", PList []); ("macros", PList [])].

Definition demo_document : string * list (string * string) :=
  ("create temporary table orders__dbt_tmp as (select 1);" +:+
     char_str newline,
   [(demo_operation,
     char_str newline +:+ "insert into orders (select * from orders__dbt_tmp);")]).


(** A driver that refuses one statement and an adapter that cannot read
    the status of another. *)
Definition fragile_adapter : Adapter := {|
  adapter_type := Ok "postgres";
  get_status := fun c =>
    if String.eqb (cursor_sql c) "vacuum"
    then Raise (AttributeError "statusmessage")
    else Ok ("OK: " +:+ cursor_sql c);
  open_connection := open_connection (Adapter:=demo_adapter);
  exception_handler := fun sql name e =>
    RuntimeError ("Database Error in " +:+ name +:+ ": " +:+ sql);
  drv_execute := fun _ c sql =>
    if String.eqb sql "select broken"
    then Raise (DriverError "syntax error")
    else Ok (mkCursor (c_name c) sql []);
  drv_commit := fun _ _ => Ok tt;
  drv_rollback := fun _ _ => Ok tt;
  drv_close := fun _ _ => Ok tt;
  alter_column_type := fun _ _ _ _ _ _ => Ok tt;
  STRICT_MODE := false;
  validate_connection := fun _ => Ok tt;
  yaml_safe_load := yaml_safe_load (Adapter:=demo_adapter);
  can_expand_to := can_expand_to (Adapter:=demo_adapter);
  string_size := string_size (Adapter:=demo_adapter);
  string_type := string_type (Adapter:=demo_adapter)
|}.

(** The demo adapter in strict mode, with a connection contract that
    knows the states of a connection. *)
Definition strict_adapter : Adapter := {|
  adapter_type := Ok "postgres";
  get_status := get_status (Adapter:=demo_adapter);
  open_connection := open_connection (Adapter:=demo_adapter);
  exception_handler := exception_handler (Adapter:=demo_adapter);
  drv_execute := drv_execute (Adapter:=demo_adapter);
  drv_commit := fun _ _ => Ok tt;
  drv_rollback := fun _ _ => Ok tt;
  drv_close := fun _ _ => Ok tt;
  alter_column_type := fun _ _ _ _ _ _ => Ok tt;
  STRICT_MODE := true;
  validate_connection := fun c =>
    if existsb (String.eqb (c_state c)) ["init"; "open"; "closed"; "fail"]
    then Ok tt
    else Raise (ValidationException "Invalid connection");
  yaml_safe_load := yaml_safe_load (Adapter:=demo_adapter);
  can_expand_to := can_expand_to (Adapter:=demo_adapter);
  string_size := string_size (Adapter:=demo_adapter);
  string_type := string_type (Adapter:=demo_adapter)
|}.

(** A connection in a state the contract does not know, cached as
    [master]. *)
Definition lost_connection (transaction_open : bool) : Connection :=
  mkConnection "postgres" "master" "lost" transaction_open (Some 1)
               demo_credentials.

Definition lost_world (transaction_open : bool) : World :=
  mkWorld {["master" := 0]} [lost_connection transaction_open] [].

Definition demo_world_two : World :=
  snd (get_connection (A:=demo_adapter) demo_profile (Some "orders")
         demo_world_idle).

Definition demo_connection_named (name : string) (transaction_open : bool)
  : Connection :=
  mkConnection "postgres" name "open" transaction_open (Some 1)
               demo_credentials.

Definition demo_tables : pyval * pyval * pyval :=
  (PStr "orders__dbt_tmp", PStr "analytics", PStr "orders").

(** A template reader that rejects an unclosed expression. *)
Definition picky_parser : ParserEnv := {|
  NodeType_Model := "model";
  NodeType_Test := "test";
  NodeType_Macro := "macro";
  NodeType_Archive := "archive";
  split_path := demo_split_path;
  splitext := splitext (ParserEnv:=demo_parser);
  get_pseudo_test_path := get_pseudo_test_path (ParserEnv:=demo_parser);
  SourceConfig := pydict;
  SourceConfig_init := fun _ _ _ => Ok [];
  update_in_model_config := fun opts cfg =>
    match opts with
    | PDict d => Ok (dict_update cfg d)
    | _ => Raise (AttributeError "items")
    end;
  SourceConfig_config := fun cfg => Ok cfg;
  jinja_from_string := fun text =>
    if String.eqb text "select {{"
    then Raise (TemplateSyntaxError "unexpected end of template")
    else Ok (scan_template Scan text);
  jinja_output := fun text _ => text;
  jinja2_Undefined := fun name method =>
    Raise (UndefinedError ("'" +:+ name +:+ "' is undefined"))
|}.

Definition picky_source_config : @SourceConfig picky_parser :=
  @nil (string * pyval).

Definition picky_render_state : @RenderState picky_parser :=
  mkRenderState demo_model_node picky_source_config [].

Definition demo_archive_project : pydict :=
  [("name", PStr "analytics"); ("project-root", PStr "/project");
   ("archive",
    PList [PDict [("source_schema", PStr "production");
                  ("target_schema", PStr "archived");
                  ("tables",
                   PList [PDict [("source_table", PStr "users");
                                 ("target_table", PStr "users_archived");
                                 ("source_schema", PStr "ignored")]])];
           PDict [("source_schema", PStr "staging")]])].

(** * Properties *)

Section AdapterFacts.
Context `{A : Adapter}.

Lemma dict_get_pop {V : Type} (k k' : string) (d : list (string * V)) :
  dict_get k (dict_pop k' d) =
  if String.eqb k k' then None else dict_get k d.
Proof.
  induction d as [|[k0 v0] d IH]; simpl.
  - by destruct (String.eqb k k').
  - destruct (String.eqb_spec k' k0) as [->|Hne]; simpl; rewrite IH.
    + by destruct (String.eqb_spec k k0).
    + destruct (String.eqb_spec k k0) as [->|]; [|done].
      by destruct (String.eqb_spec k0 k').
Qed.

Lemma get_connection_rec_cached depth profile name (w : World) l :
  connection_cache w !! name = Some l ->
  get_connection_rec (S depth) profile name w = (Ok l, w).
Proof.
  intros H. simpl. unfold bind, cache_lookup. by rewrite H.
Qed.

Lemma get_connection_rec_caches depth profile name (w w1 : World) l :
  get_connection_rec depth profile name w = (Ok l, w1) ->
  connection_cache w1 !! name = Some l.
Proof.
  revert w. induction depth as [|d IH]; intros w; simpl; [done|].
  unfold bind at 1. unfold cache_lookup.
  destruct (connection_cache w !! name) as [l0|] eqn:Hc.
  - unfold ret. intros [= <- <-]. done.
  - unfold bind at 1. unfold lift at 1.
    destruct adapter_type; [|done].
    unfold bind at 1.
    destruct (acquire_connection profile name w) as [[c|e] w2]; [|done].
    unfold bind at 1. unfold alloc at 1.
    unfold bind at 1. unfold cache_store at 1.
    apply IH.
Qed.

Lemma bind_ok_inv {X Y : Type} (m : M X) (f : X -> M Y) (w w' : World) (y : Y) :
  bind m f w = (Ok y, w') ->
  exists x w1, m w = (Ok x, w1) /\ f x w1 = (Ok y, w').
Proof.
  unfold bind. destruct (m w) as [[x|e] w1]; [|done]. eauto.
Qed.

Lemma deref_ok_inv (l : loc) (w w' : World) (c : Connection) :
  deref l w = (Ok c, w') -> w' = w /\ heap w !! l = Some c.
Proof.
  unfold deref. destruct (heap w !! l); [|done]. by intros [= -> ->].
Qed.

Lemma deref_some (l : loc) (w : World) (c : Connection) :
  heap w !! l = Some c -> deref l w = (Ok c, w).
Proof. unfold deref. by intros ->. Qed.

Lemma strict_validate_ok (c : Connection) (w : World) :
  strict_ok c -> strict_validate c w = (Ok tt, w).
Proof.
  unfold strict_ok, strict_validate. intros [H|H].
  - by rewrite H.
  - destruct STRICT_MODE; [|done]. unfold lift. by rewrite H.
Qed.

Lemma strict_validate_world (c : Connection) (w w' : World) r :
  strict_validate c w = (r, w') -> w' = w.
Proof.
  unfold strict_validate. destruct STRICT_MODE; unfold lift, ret; congruence.
Qed.

(** The tail of [commit] and [rollback] once the driver has answered. *)
Lemma close_transaction_ok (l l' : loc) (w w' : World) :
  (connection <- deref l ;;
   store l (set_transaction_open false connection) ;;;
   cache_store (c_name connection) l ;;;
   ret l) w = (Ok l', w') ->
  l' = l /\
  exists c, heap w' !! l = Some c /\ c_transaction_open c = false /\
            connection_cache w' !! c_name c = Some l.
Proof.
  intros H. apply bind_ok_inv in H as (c & w1 & Hd & H).
  apply deref_ok_inv in Hd as [-> Hc].
  unfold bind, store, cache_store, ret in H. injection H as <- <-.
  split; [done|]. exists (set_transaction_open false c). simpl.
  split; [|split; [done|]].
  - apply list_lookup_insert_eq. by eapply lookup_lt_Some.
  - apply lookup_insert_eq.
Qed.

Lemma get_connection_cached profile (name : string) (w : World) l :
  connection_cache w !! name = Some l ->
  get_connection profile (Some name) w = (Ok l, w).
Proof. intros H. by apply get_connection_rec_cached. Qed.

(** Peel the first step of a run that returned, forgetting how it went. *)
Ltac skip_step H :=
  let x := fresh "x" in
  let w := fresh "w" in
  apply bind_ok_inv in H as (x & w & _ & H).

Lemma begin_ok_inv profile name (w w' : World) l :
  begin profile name w = (Ok l, w') ->
  exists c (w1 : World),
    heap w1 !! l = Some c /\
    w' = mkWorld (<[name := l]> (connection_cache w1))
                 (<[l := set_transaction_open true c]> (heap w1))
                 (trace w1).
Proof.
  unfold begin. intros H. do 3 skip_step H.
  destruct (c_transaction_open _); [done|].
  skip_step H. apply bind_ok_inv in H as (c & wd & Hd & H).
  apply deref_ok_inv in Hd as [-> Hc].
  unfold bind, store, cache_store, ret in H. injection H as <- <-.
  by eexists c, _.
Qed.

(** [acquire_connection] reaches the driver and nothing else. *)
Lemma acquire_connection_world profile name (w w' : World) r :
  acquire_connection profile name w = (r, w') ->
  connection_cache w' = connection_cache w /\ heap w' = heap w.
Proof.
  unfold acquire_connection. unfold bind at 1. unfold lift at 1.
  destruct (acquire_connection_result profile name) as [pr|e];
    [|by intros [= _ <-]].
  unfold bind at 1.
  destruct (strict_validate (snd pr) w) as [[[]|e] w1] eqn:Hv;
    apply strict_validate_world in Hv as ->; [|by intros [= _ <-]].
  unfold bind, emit, lift. by intros [= _ <-].
Qed.

Lemma cache_allocated_store (w : World) (name : string) (c : Connection) :
  cache_allocated w ->
  cache_allocated
    (mkWorld (<[name := length (heap w)]> (connection_cache w))
             (heap w ++ [c]) (trace w)).
Proof.
  intros Hw n l. cbn [connection_cache heap].
  destruct (decide (n = name)) as [->|Hne].
  - rewrite lookup_insert_eq. intros [= <-].
    by rewrite list_lookup_middle.
  - rewrite lookup_insert_ne by done. intros Hl.
    destruct (Hw n l Hl) as [c' Hc']. exists c'.
    by apply lookup_app_l_Some.
Qed.

(** [get_connection] keeps the cache within the stored connections. *)
Lemma get_connection_rec_allocated depth profile name :
  forall (w w1 : World) r,
    cache_allocated w ->
    get_connection_rec depth profile name w = (r, w1) ->
    cache_allocated w1.
Proof.
  induction depth as [|depth IH]; intros w w1 r Hw; cbn [get_connection_rec].
  - unfold raise. by intros [= _ <-].
  - unfold bind at 1. unfold cache_lookup at 1.
    destruct (connection_cache w !! name) as [l0|].
    + unfold ret. by intros [= _ <-].
    + unfold bind at 1. unfold lift at 1.
      destruct adapter_type as [ty|e]; [|by intros [= _ <-]].
      unfold bind at 1.
      destruct (acquire_connection profile name w) as [[c|e] w2] eqn:Ha;
        apply acquire_connection_world in Ha as [Hcache Hheap].
      * unfold bind at 1. unfold alloc at 1.
        unfold bind at 1. unfold cache_store at 1.
        cbn [connection_cache heap trace].
        apply IH.
        assert (Hw2 : cache_allocated w2).
        { intros n l. rewrite Hcache, Hheap. apply Hw. }
        apply (cache_allocated_store w2 name c Hw2).
      * intros [= _ <-]. intros n l. rewrite Hcache, Hheap. apply Hw.
Qed.

(** C6. When a call of [get_connection] has returned, the connection it
    returned is the entry of the cache under the name (the stored
    connection that entry refers to), and a further call with that
    name, whatever the profile, returns the same object and leaves the
    cache, the stored connections and the driver trace as they were:
    nothing is acquired, and what is read through the connection of the
    second call, its handle included, is what is read through the
    first. *)
Theorem get_connection_idempotent
    (profile profile' : pydict) (name : option string) (w w1 : World)
    (l : loc) :
  get_connection profile name w = (Ok l, w1) ->
  connection_cache w1 !! cached_name name = Some l /\
  get_connection profile' name w1 = (Ok l, w1) /\
  (l' <- get_connection profile' name ;; deref l') w1 = deref l w1 /\
  (cache_allocated w ->
   exists c, heap w1 !! l = Some c /\ deref l w1 = (Ok c, w1)).
Proof.
  unfold get_connection. fold (cached_name name). intros H.
  assert (Hc := get_connection_rec_caches _ _ _ _ _ _ H).
  assert (Hagain :
    get_connection_rec recursion_limit profile' (cached_name name) w1
    = (Ok l, w1)) by (by apply get_connection_rec_cached).
  split; [exact Hc|]. split; [exact Hagain|]. split.
  - unfold bind. by rewrite Hagain.
  - intros Hw.
    destruct (get_connection_rec_allocated _ _ _ _ _ _ Hw H _ _ Hc)
      as [c Hl].
    exists c. split; [exact Hl|by apply deref_some].
Qed.

(** The record of [acquire_connection], in terms of the content of the
    profile. *)
Lemma acquire_connection_result_eq (profile : pydict) (name : string) :
  acquire_connection_result profile name
  = rbind adapter_type (fun ty =>
      Ok (profile,
          mkConnection ty name "init" false None
            (dict_pop "threads" (dict_pop "type" profile)))).
Proof.
  unfold acquire_connection_result, acquire_connection_record.
  cbn. by destruct adapter_type.
Qed.

Lemma acquire_connection_record_run
    (s : Dicts) (profile : dref) (d : pydict) (name ty : string) :
  s !! profile = Some d ->
  adapter_type = Ok ty ->
  acquire_connection_record profile name s
  = (Ok (length s,
         mkConnection ty name "init" false None
           (dict_pop "threads" (dict_pop "type" d))),
     (s ++ [dict_pop "threads" (dict_pop "type" d)])%list).
Proof.
  intros Hd Hty. unfold acquire_connection_record, deepcopy_dict.
  rewrite Hd. unfold deepcopy, Dicts, dref in *. cbv zeta.
  assert (Halter :
    pop_dict "threads" (length s) (pop_dict "type" (length s) (s ++ [d])%list)
    = (s ++ [dict_pop "threads" (dict_pop "type" d)])%list).
  { unfold pop_dict. unfold Dicts, dref. apply list_eq. intros i.
    destruct (decide (i = length s)) as [->|Hne].
    - rewrite !list_lookup_alter_eq, !list_lookup_middle by done. done.
    - rewrite !list_lookup_alter_ne by done.
      destruct (decide (i < length s)) as [Hlt|Hge].
      + by rewrite !lookup_app_l.
      + rewrite !lookup_ge_None_2; [done| |];
          rewrite length_app; simpl; lia. }
  rewrite Halter, list_lookup_middle by done. by rewrite Hty.
Qed.

(** C10. [acquire_connection] works on a deep copy of the caller's
    profile: after it the caller's dictionary, like every dictionary
    that was alive, holds what it held, and the credentials are a new
    dictionary. The record built around them carries the requested
    name, state [init], no open transaction, no handle, and as
    credentials the profile without its [type] and [threads] entries;
    that record is what the driver handshake [open_connection]
    receives. *)
Theorem acquire_connection_frame
    (s : Dicts) (profile : dref) (d : pydict) (name ty : string)
    (w : World) :
  s !! profile = Some d ->
  adapter_type = Ok ty ->
  exists credentials result s',
    acquire_connection_record profile name s
    = (Ok (credentials, result), s') /\
    (s' !! profile = Some d) /\
    (forall r, r < length s -> s' !! r = s !! r) /\
    (s !! credentials = None) /\
    (s' !! credentials = Some (c_credentials result)) /\
    c_credentials result = dict_pop "threads" (dict_pop "type" d) /\
    c_name result = name /\
    c_state result = "init" /\
    c_transaction_open result = false /\
    c_handle result = None /\
    (forall k, dict_get k (c_credentials result) =
               if String.eqb k "type" || String.eqb k "threads" then None
               else dict_get k d) /\
    acquire_connection_result d name = Ok (d, result) /\
    (strict_ok result ->
     acquire_connection d name w =
     (open_connection result,
      mkWorld (connection_cache w) (heap w)
              (trace w ++ [EvOpenConnection result]))).
Proof.
  intros Hd Hty. eexists _, _, _.
  split; [by apply acquire_connection_record_run|].
  split; [by apply lookup_app_l_Some|].
  split; [intros r Hr; by apply lookup_app_l|].
  split; [by apply lookup_ge_None_2|].
  split; [by apply list_lookup_middle|].
  do 5 (split; [reflexivity|]).
  split; [|split].
  - intros k. cbn [c_credentials]. rewrite !dict_get_pop.
    destruct (String.eqb k "type"), (String.eqb k "threads"); done.
  - rewrite acquire_connection_result_eq, Hty. reflexivity.
  - intros Hv. unfold acquire_connection.
    rewrite acquire_connection_result_eq, Hty. simpl.
    unfold bind at 1. unfold lift at 1. simpl.
    unfold bind at 1. rewrite (strict_validate_ok _ _ Hv).
    unfold bind, emit, lift. reflexivity.
Qed.

End AdapterFacts.

(** ** Dictionaries built by insertion *)

Section Dictionaries.
Context {V : Type}.
Implicit Types (d : list (string * V)) (k : string) (v : V).

Lemma dict_set_keys k v d k' :
  k' ∈ fst <$> dict_set k v d <-> k' = k \/ k' ∈ fst <$> d.
Proof.
  induction d as [|[k0 v0] d IH]; simpl.
  - rewrite list_elem_of_singleton, elem_of_nil. tauto.
  - destruct (String.eqb_spec k k0) as [->|Hne]; simpl.
    + rewrite !elem_of_cons. tauto.
    + rewrite !elem_of_cons, IH. tauto.
Qed.

Lemma dict_set_NoDup k v d :
  NoDup (fst <$> d) -> NoDup (fst <$> dict_set k v d).
Proof.
  induction d as [|[k0 v0] d IH]; simpl; intros Hnd.
  - apply NoDup_singleton.
  - apply NoDup_cons in Hnd as [Hni Hnd].
    destruct (String.eqb_spec k k0) as [->|Hne]; simpl.
    + by apply NoDup_cons.
    + apply NoDup_cons. split; [|by apply IH].
      rewrite dict_set_keys. intros [?|?]; [congruence|done].
Qed.

Lemma dict_set_elem k v d k' v' :
  (k', v') ∈ dict_set k v d -> (k', v') = (k, v) \/ (k', v') ∈ d.
Proof.
  induction d as [|[k0 v0] d IH]; simpl.
  - rewrite list_elem_of_singleton. tauto.
  - destruct (String.eqb_spec k k0) as [->|Hne];
      rewrite !elem_of_cons; [tauto|].
    intros [?|?]; [tauto|]. destruct IH; tauto.
Qed.

Lemma dict_set_fresh k v d :
  k ∉ fst <$> d -> dict_set k v d = (d ++ [(k, v)])%list.
Proof.
  induction d as [|[k0 v0] d IH]; simpl; [done|].
  rewrite not_elem_of_cons. intros [Hne Hni].
  destruct (String.eqb_spec k k0); [done|]. by rewrite IH.
Qed.

Lemma dict_update_keys d other k' :
  k' ∈ fst <$> dict_update d other <->
  k' ∈ fst <$> d \/ k' ∈ fst <$> other.
Proof.
  unfold dict_update. revert d.
  induction other as [|[k v] other IH]; intros d; simpl.
  - rewrite elem_of_nil. tauto.
  - rewrite IH, dict_set_keys, elem_of_cons. tauto.
Qed.

Lemma dict_update_NoDup d other :
  NoDup (fst <$> d) -> NoDup (fst <$> dict_update d other).
Proof.
  unfold dict_update. revert d.
  induction other as [|[k v] other IH]; intros d Hnd; simpl; [done|].
  apply IH. by apply dict_set_NoDup.
Qed.

Lemma dict_update_elem d other k' v' :
  (k', v') ∈ dict_update d other -> (k', v') ∈ d \/ (k', v') ∈ other.
Proof.
  unfold dict_update. revert d.
  induction other as [|[k v] other IH]; intros d; simpl; [tauto|].
  intros H. apply IH in H as [H|H].
  - apply dict_set_elem in H as [->|H]; rewrite ?elem_of_cons; tauto.
  - rewrite elem_of_cons. tauto.
Qed.

Lemma dict_update_fresh d other :
  NoDup (fst <$> other) -> (forall k, k ∈ fst <$> other -> k ∉ fst <$> d) ->
  dict_update d other = (d ++ other)%list.
Proof.
  unfold dict_update. revert d.
  induction other as [|[k v] other IH]; intros d Hnd Hdis; simpl.
  - by rewrite app_nil_r.
  - simpl in Hnd. apply NoDup_cons in Hnd as [Hni Hnd].
    rewrite dict_set_fresh by (apply Hdis; simpl; apply elem_of_cons; tauto).
    rewrite IH; [by rewrite <- app_assoc|done|].
    intros k' Hk'. rewrite fmap_app, elem_of_app. simpl.
    rewrite list_elem_of_singleton. intros [?| ->]; [|done].
    eapply Hdis; [|done]. simpl. apply elem_of_cons. tauto.
Qed.

End Dictionaries.

Section ColumnFacts.
Context `{A : Adapter}.

Lemma columns_by_name_keys (cols : list Column) (n : string) :
  n ∈ fst <$> columns_by_name cols <-> n ∈ col_name <$> cols.
Proof.
  unfold columns_by_name. rewrite dict_update_keys, <- list_fmap_compose.
  simpl. rewrite elem_of_nil. tauto.
Qed.

Lemma columns_by_name_NoDup (cols : list Column) :
  NoDup (fst <$> columns_by_name cols).
Proof. apply dict_update_NoDup. simpl. apply NoDup_nil_2. Qed.

Lemma columns_by_name_elem (cols : list Column) (k : string) (c : Column) :
  (k, c) ∈ columns_by_name cols -> c ∈ cols /\ col_name c = k.
Proof.
  intros H. apply dict_update_elem in H as [H|H].
  - by apply elem_of_nil in H.
  - apply list_elem_of_fmap in H as (c' & [= -> ->] & Hc'). done.
Qed.

Lemma columns_by_name_distinct (cols : list Column) :
  NoDup (col_name <$> cols) ->
  columns_by_name cols = (fun col => (col_name col, col)) <$> cols.
Proof.
  intros Hnd. unfold columns_by_name. rewrite dict_update_fresh; [done| |].
  - by rewrite <- list_fmap_compose.
  - intros k _. simpl. apply not_elem_of_nil.
Qed.

Lemma filter_by_name (P : string * Column -> Prop) (Q : Column -> Prop)
    `{!forall kv, Decision (P kv)} `{!forall c, Decision (Q c)}
    (cols : list Column) (d : list (string * Column)) :
  d = (fun col => (col_name col, col)) <$> cols ->
  (forall c, c ∈ cols -> P (col_name c, c) <-> Q c) ->
  snd <$> filter P d = filter Q cols.
Proof.
  intros ->. induction cols as [|c cols IH]; intros HPQ; [done|].
  rewrite fmap_cons, !filter_cons.
  assert (Hc : P (col_name c, c) <-> Q c) by (apply HPQ; left).
  assert (IH' : snd <$> filter P ((fun col => (col_name col, col)) <$> cols)
                = filter Q cols) by (apply IH; intros; apply HPQ; by right).
  destruct (decide (P (col_name c, c))), (decide (Q c));
    [|tauto|tauto|exact IH'].
  rewrite fmap_cons. simpl. by rewrite IH'.
Qed.

(** C9. The columns [get_missing_columns] returns are columns of the
    from-table whose name is not a column name of the to-table; their
    names are exactly the from-table names absent from the to-table, each
    once; and when the from-table's rows have distinct names the result
    is the from-table's columns filtered by that test, in their order. *)
Theorem get_missing_columns_exact
    (profile : pydict) (from_schema from_table to_schema to_table : pyval)
    (model_name : option string) (w w1 w2 : World)
    (from_cols to_cols : list Column) :
  get_columns_in_table profile from_schema from_table model_name w
    = (Ok from_cols, w1) ->
  get_columns_in_table profile to_schema to_table model_name w1
    = (Ok to_cols, w2) ->
  exists result,
    get_missing_columns profile from_schema from_table to_schema to_table
                        model_name w = (Ok result, w2) /\
    (forall c, c ∈ result ->
               c ∈ from_cols /\ col_name c ∉ col_name <$> to_cols) /\
    (forall n, n ∈ col_name <$> result <->
               n ∈ col_name <$> from_cols /\ n ∉ col_name <$> to_cols) /\
    NoDup (col_name <$> result) /\
    (NoDup (col_name <$> from_cols) ->
     result = filter (fun c => col_name c ∉ col_name <$> to_cols) from_cols).
Proof.
  intros Hfrom Hto. eexists. split.
  { unfold get_missing_columns. unfold bind at 1. rewrite Hfrom.
    unfold bind at 1. rewrite Hto. reflexivity. }
  set (P := fun kv : string * Column =>
              fst kv ∈ (list_to_set (fst <$> columns_by_name from_cols)
                          ∖ list_to_set (fst <$> columns_by_name to_cols)
                        : gset string)).
  assert (HP : forall kv, P kv <->
            fst kv ∈ col_name <$> from_cols /\
            fst kv ∉ col_name <$> to_cols).
  { intros kv. unfold P.
    rewrite elem_of_difference, !elem_of_list_to_set, !columns_by_name_keys.
    done. }
  assert (Hin : forall c, c ∈ snd <$> filter P (columns_by_name from_cols) ->
            c ∈ from_cols /\ col_name c ∉ col_name <$> to_cols).
  { intros c Hc. apply list_elem_of_fmap in Hc as ([k c'] & -> & Hkv).
    apply list_elem_of_filter in Hkv as [Hp Hkv].
    apply columns_by_name_elem in Hkv as [Hc' <-].
    apply HP in Hp. simpl in *. tauto. }
  split; [exact Hin|]. split; [|split].
  - intros n. split.
    + intros Hn. apply list_elem_of_fmap in Hn as (c & -> & Hc).
      apply Hin in Hc as [Hc Hn]. split; [|done].
      by apply list_elem_of_fmap_2.
    + intros [Hn Hn'].
      apply columns_by_name_keys, list_elem_of_fmap in Hn
        as ([k c] & -> & Hkv).
      apply list_elem_of_fmap. exists c. simpl.
      pose proof (columns_by_name_elem _ _ _ Hkv) as [_ Hk].
      split; [done|].
      apply list_elem_of_fmap. exists (k, c). split; [done|].
      apply list_elem_of_filter. split; [|done].
      apply HP. simpl. split; [|done].
      apply columns_by_name_keys. apply list_elem_of_fmap. by exists (k, c).
  - assert (Heq : col_name <$> (snd <$> filter P (columns_by_name from_cols))
                  = fst <$> filter P (columns_by_name from_cols)).
    { rewrite <- list_fmap_compose. apply list_fmap_ext.
      intros i [k c] Hkv. simpl. apply list_elem_of_lookup_2 in Hkv.
      apply list_elem_of_filter in Hkv as [_ Hkv].
      by apply columns_by_name_elem in Hkv as [_ ?]. }
    rewrite Heq. eapply sublist_NoDup; [apply columns_by_name_NoDup|].
    apply fmap_sublist, sublist_filter.
  - intros Hnd. apply filter_by_name.
    { by apply columns_by_name_distinct. }
    intros c Hc. rewrite HP. simpl.
    split; [tauto|]. intros Hn. split; [|done].
    by apply list_elem_of_fmap_2.
Qed.

End ColumnFacts.

(** ** The marker split *)

Section SplitFacts.
Implicit Types (t v x g cur : string) (c : ascii).

Lemma append_cons c t v : String c t +:+ v = String c (t +:+ v).
Proof. reflexivity. Qed.

Lemma append_nil_l v : "" +:+ v = v.
Proof. reflexivity. Qed.

Lemma append_assoc t v x : (t +:+ v) +:+ x = t +:+ (v +:+ x).
Proof.
  induction t as [|c t IH]; [done|]. rewrite !append_cons. by rewrite IH.
Qed.

Lemma append_nil_r t : t +:+ "" = t.
Proof.
  induction t as [|c t IH]; [done|]. rewrite append_cons. by rewrite IH.
Qed.

Lemma contains_char_cons c c' t :
  contains_char c (String c' t) =
  if Ascii.eqb c c' then true else contains_char c t.
Proof. reflexivity. Qed.

Lemma contains_char_app c t v :
  contains_char c (t +:+ v) = contains_char c t || contains_char c v.
Proof.
  induction t as [|c' t IH]; [done|]. rewrite append_cons. simpl.
  destruct (Ascii.eqb c c'); [done|]. exact IH.
Qed.

Lemma ends_with_char_contains c t :
  ends_with_char c t = true -> contains_char c t = true.
Proof.
  induction t as [|c' [|c'' t] IH]; simpl in *; [done| |].
  - by intros ->.
  - intros H. destruct (Ascii.eqb c c'); [done|]. by apply IH.
Qed.

(** A pattern that starts a text followed by more either starts the text
    itself, or has swallowed the whole text. *)
Lemma prefix_app_cases p v x :
  String.prefix p (v +:+ x) = true ->
  String.prefix p v = true \/
  (forall c, contains_char c v = true -> contains_char c p = true).
Proof.
  revert v. induction p as [|a p IH]; intros v.
  - intros _. left. by destruct v.
  - destruct v as [|b v].
    + intros _. right. done.
    + rewrite append_cons. simpl.
      destruct (ascii_dec a b) as [->|Hne]; [|done].
      intros H. apply IH in H as [H|H]; [by left|right].
      intros c. simpl. destruct (Ascii.eqb c b); [done|]. apply H.
Qed.

Lemma prefix_cons a p b t :
  String.prefix (String a p) (String b t) =
  match ascii_dec a b with
  | left _ => String.prefix p t
  | right _ => false
  end.
Proof. reflexivity. Qed.

Lemma has_marker_tail c t : has_marker (String c t) = false ->
  has_marker t = false.
Proof. simpl. by intros [_ ?]%orb_false_iff. Qed.

Lemma marker_free_cons c t x :
  marker_free_before (String c t) x =
  negb (String.prefix marker_start (String c (t +:+ x))) &&
  marker_free_before t x.
Proof. reflexivity. Qed.

Lemma marker_free_whole_lines t x :
  has_marker t = false -> whole_lines t = true ->
  marker_free_before t x = true.
Proof.
  induction t as [|c t IH]; [done|]. intros Hm Hl.
  rewrite marker_free_cons. apply andb_true_iff. split.
  - apply negb_true_iff. rewrite <- append_cons.
    destruct (String.prefix marker_start (String c t +:+ x)) eqn:Hp; [|done].
    apply prefix_app_cases in Hp as [Hp|Hp].
    + simpl in Hm. apply orb_false_iff in Hm as [Hm _].
      simpl in Hp. congruence.
    + specialize (Hp newline (ends_with_char_contains _ _ Hl)).
      vm_compute in Hp. done.
  - apply IH; [by eapply has_marker_tail|].
    destruct t; [done|]. exact Hl.
Qed.

Lemma marker_free_last t :
  has_marker t = false -> marker_free_before t "" = true.
Proof.
  induction t as [|c t IH]; [done|]. intros Hm.
  rewrite marker_free_cons, append_nil_r.
  simpl in Hm. apply orb_false_iff in Hm as [Hm Hm'].
  apply andb_true_iff. split; [by apply negb_true_iff|by apply IH].
Qed.

Lemma re_split_text t x cur :
  marker_free_before t x = true ->
  re_split_go InText cur (t +:+ x) = re_split_go InText (cur +:+ t) x.
Proof.
  revert cur. induction t as [|c t IH]; intros cur.
  - intros _. by rewrite append_nil_l, append_nil_r.
  - rewrite marker_free_cons. intros H.
    apply andb_true_iff in H as [Hp Hf]. apply negb_true_iff in Hp.
    rewrite append_cons. cbn [re_split_go]. rewrite Hp, IH by done.
    by rewrite append_assoc.
Qed.

Lemma re_split_marker x cur :
  re_split_go InText cur (marker_start +:+ x)
  = cur :: re_split_go InGroup "" ("DBT_OPERATION " +:+ x).
Proof.
  destruct x; vm_compute; reflexivity.
Qed.

Lemma re_split_group g x cur :
  contains_char newline g = false ->
  re_split_go InGroup cur (g +:+ x) = re_split_go InGroup (cur +:+ g) x.
Proof.
  revert cur. induction g as [|c g IH]; intros cur.
  - intros _. by rewrite append_nil_l, append_nil_r.
  - intros H. rewrite contains_char_cons, (Ascii.eqb_sym newline c) in H.
    rewrite append_cons. cbn [re_split_go].
    destruct (Ascii.eqb c newline); [done|].
    rewrite IH by done. by rewrite append_assoc.
Qed.





Lemma substring_all t : substring 0 (String.length t) t = t.
Proof. induction t as [|c t IH]; [done|]. simpl. by rewrite IH. Qed.


Lemma match_operation_text t :
  String.prefix "DBT_OPERATION {" t = false -> match_operation t = None.
Proof. unfold match_operation. by intros ->. Qed.





End SplitFacts.

Section ExecuteModelFacts.
Context `{A : Adapter}.

Lemma execute_part_classify profile model cursor part :
  execute_part profile model cursor part
  = run_action profile model cursor (classify_part part).
Proof.
  unfold execute_part, classify_part, run_action.
  by destruct (match_operation part).
Qed.

Lemma for_each_parts profile model parts cursor (w : World) :
  for_each parts (execute_part profile model) cursor w
  = for_each (classify_part <$> parts) (run_action profile model) cursor w.
Proof.
  revert cursor w. induction parts as [|part parts IH]; intros cursor w.
  - reflexivity.
  - cbn [for_each fmap list_fmap]. unfold bind.
    rewrite execute_part_classify.
    destruct (run_action profile model cursor (classify_part part) w)
      as [[c|e] w1]; [apply IH|done].
Qed.

Lemma execute_model_run_actions profile model (w : World) :
  execute_model profile model w
  = run_actions profile model (execute_model_actions model) w.
Proof.
  unfold execute_model, run_actions, execute_model_actions, bind.
  by rewrite for_each_parts.
Qed.


Lemma add_query_cursor profile sql model_name (w w' : World) l cursor :
  add_query profile sql model_name w = (Ok (l, cursor), w') ->
  cursor_of cursor sql.
Proof.
  unfold add_query. intros H.
  apply bind_ok_inv in H as (l0 & w1 & _ & H).
  apply bind_ok_inv in H as (conn & w2 & _ & H).
  apply bind_ok_inv in H as (ty & w3 & _ & H).
  match type of H with
  | match ?m with _ => _ end = _ => destruct m as [[r|e] w4] eqn:Hh
  end; [|done].
  injection H as -> ->.
  apply bind_ok_inv in Hh as (w0 & w5 & Hw & Hh).
  apply bind_ok_inv in Hh as (c & w6 & Hc & Hh).
  apply bind_ok_inv in Hh as (? & w7 & _ & Hh).
  apply bind_ok_inv in Hh as (? & w8 & _ & Hh).
  unfold ret in Hh. unfold lift in Hc. unfold get_world in Hw.
  simplify_eq. by eexists _, conn.
Qed.

Lemma run_action_tracks profile model cursor sql a (w w' : World) cursor' :
  run_action profile model cursor a w = (Ok cursor', w') ->
  cursor_tracks cursor sql ->
  cursor_tracks cursor' (match a with
                         | RunStatement q => Some q
                         | RunOperation _ => sql
                         end).
Proof.
  destruct a as [q|i]; cbn [run_action]; intros H Ht.
  - apply bind_ok_inv in H as ([l c] & w1 & Hq & H).
    unfold ret in H. injection H as <- <-.
    by apply add_query_cursor in Hq.
  - apply bind_ok_inv in H as (? & w1 & _ & H).
    apply bind_ok_inv in H as (? & w2 & _ & H).
    apply bind_ok_inv in H as (? & w3 & _ & H).
    apply bind_ok_inv in H as (? & w4 & _ & H).
    unfold ret in H. by injection H as <- <-.
Qed.

Lemma for_each_tracks profile model actions :
  forall cursor sql (w w' : World) cursor',
    for_each actions (run_action profile model) cursor w = (Ok cursor', w') ->
    cursor_tracks cursor sql ->
    cursor_tracks cursor'
      (fold_left (fun acc a => match a with
                               | RunStatement q => Some q
                               | RunOperation _ => acc
                               end) actions sql).
Proof.
  induction actions as [|a actions IH]; intros cursor sql w w' cursor' H Ht.
  - cbn in H. unfold ret in H. by injection H as <- <-.
  - cbn [for_each] in H. apply bind_ok_inv in H as (c1 & w1 & Ha & H).
    cbn [fold_left]. eapply IH; [exact H|].
    by eapply run_action_tracks.
Qed.

(** C4, as the code has it. The status [execute_model] returns is the
    adapter's status of the cursor of the last part it ran as a
    statement; the dispatch of an operation leaves that cursor as it
    was and supplies no status of its own. *)
Theorem execute_model_status
    (profile : pydict) (model : Model) (w w' : World) (status : string) :
  execute_model profile model w = (Ok status, w') ->
  exists sql cursor,
    last_statement (execute_model_actions model) = Some sql /\
    cursor_of cursor sql /\
    get_status cursor = Ok status.
Proof.
  rewrite execute_model_run_actions. unfold run_actions. intros H.
  apply bind_ok_inv in H as (cursor & w1 & Hloop & H).
  eapply (for_each_tracks _ _ _ _ None) in Hloop; [|exact I].
  fold (last_statement (execute_model_actions model)) in Hloop.
  destruct cursor as [c|]; [|done].
  destruct (last_statement (execute_model_actions model)) as [sql|];
    [|done].
  exists sql, c. split; [done|]. split; [exact Hloop|].
  unfold lift in H. by injection H as -> _.
Qed.

End ExecuteModelFacts.

(** ** The parser and the template client *)

Section ParserFacts.
Context `{P : ParserEnv}.

Lemma dict_get_set_eq {V : Type} (k : string) (v : V) d :
  dict_get k (dict_set k v d) = Some v.
Proof.
  induction d as [|[k0 v0] d IH]; simpl.
  - by rewrite String.eqb_refl.
  - destruct (String.eqb k k0) eqn:E; simpl.
    + by rewrite String.eqb_refl.
    + by rewrite E.
Qed.

Lemma dict_get_set_ne {V : Type} (k k' : string) (v : V) d :
  k <> k' -> dict_get k (dict_set k' v d) = dict_get k d.
Proof.
  intros Hne. induction d as [|[k0 v0] d IH]; simpl.
  - by destruct (String.eqb_spec k k').
  - destruct (String.eqb_spec k' k0) as [->|Hne']; simpl.
    + by destruct (String.eqb_spec k k0).
    + by rewrite IH.
Qed.

Lemma py_eq_str_false (v : pyval) (s : string) :
  v <> PStr s -> py_eq_str v s = false.
Proof.
  destruct v; try done. simpl. intros Hne.
  destruct (String.eqb_spec s0 s); congruence.
Qed.

(** The keyword [parse_node] passes is not a parameter of
    [get_rendered]: the call fails before any rendering. *)
Lemma call_get_rendered_capture_macros string_ ctx node st :
  call_get_rendered string_ ctx node [("capture_macros", true)] st
  = (Raise unexpected_capture_macros, st).
Proof. reflexivity. Qed.

Lemma parse_node_render_call_rejected
    node node_path root package all_projects tags fqn_extra :
  parse_node node node_path root package all_projects tags fqn_extra
  = match parse_node_prepare node root package fqn_extra with
    | Raise e => (Raise e, [])
    | Ok _ => (Raise unexpected_capture_macros, [])
    end.
Proof.
  unfold parse_node.
  destruct (parse_node_prepare node root package fqn_extra)
    as [[[node' fqn] config]|e]; [|done].
  by rewrite call_get_rendered_capture_macros.
Qed.

(** In silent mode a rebound method of the undefined value reports the
    name through [cb] and yields [None]. *)
Lemma undefined_method_silent node name method n st :
  dict_get "name" node = Some n ->
  method ∈ SilentUndefined_methods ->
  undefined_method true node name method st
  = (Ok PNone,
     mkRenderState (rs_node st) (rs_config st)
       (rs_stdout st ++
        ["UNDEFINED: model=" +:+ py_str n +:+ " name=" +:+ name])).
Proof.
  intros Hn Hm. unfold undefined_method.
  replace (existsb (String.eqb method) SilentUndefined_methods) with true.
  - unfold cb. by rewrite Hn.
  - symmetry. apply existsb_exists. exists method.
    split; [by apply list_elem_of_In|apply String.eqb_refl].
Qed.

(** Subtraction is not among the rebound methods. *)
Lemma SilentUndefined_no_sub :
  ("__sub__" ∉ SilentUndefined_methods) /\
  ("__rsub__" ∉ SilentUndefined_methods).
Proof.
  split; intros H; apply list_elem_of_In in H; simpl in H;
    repeat destruct H as [H|H]; done.
Qed.

(** C8. A [relationships] or [accepted_values] config that is not a
    mapping makes [parse_schema_test] return [None] without raising or
    printing; a test type other than [not_null], [unique],
    [relationships] and [accepted_values] makes it raise
    [ValidationException]. *)
Theorem parse_schema_test_skips_and_rejects :
  (forall test_base model_name test_config test_type root package all_projects,
     test_type = PStr "relationships" \/ test_type = PStr "accepted_values" ->
     (forall d, test_config <> PDict d) ->
     parse_schema_test test_base model_name test_config test_type
                       root package all_projects = (Ok None, []))
  /\
  (forall test_base model_name test_config test_type root package all_projects,
     test_type <> PStr "not_null" -> test_type <> PStr "unique" ->
     test_type <> PStr "relationships" ->
     test_type <> PStr "accepted_values" ->
     exists msg,
       parse_schema_test test_base model_name test_config test_type
                         root package all_projects
       = (Raise (ValidationException msg), [])).
Proof.
  split.
  - intros test_base model_name test_config test_type root package all_projects
           Ht Hc.
    unfold parse_schema_test, schema_test_definition, schema_test_sql.
    destruct Ht as [-> | ->]; cbn [py_eq_str String.eqb Ascii.eqb Bool.eqb];
      destruct test_config; try reflexivity; by destruct (Hc d).
  - intros test_base model_name test_config test_type root package all_projects
           H1 H2 H3 H4.
    unfold parse_schema_test, schema_test_definition, schema_test_sql.
    rewrite !py_eq_str_false by done. eexists. reflexivity.
Qed.

End ParserFacts.

(** ** Further properties of the adapter *)

Ltac skip_step H :=
  let x := fresh "x" in
  let w := fresh "w" in
  apply bind_ok_inv in H as (x & w & _ & H).

Section ConnectionFacts.
Context `{A : Adapter}.

Lemma get_connection_hit profile model_name (w : World) l :
  connection_cache w !! cached_name model_name = Some l ->
  get_connection profile model_name w = (Ok l, w).
Proof. intros H. by apply get_connection_rec_cached. Qed.

(** [add_query] on a cached connection whose statement the driver
    accepts. *)
Lemma add_query_cached profile sql model_name (w : World) l c ty cursor st :
  connection_cache w !! cached_name model_name = Some l ->
  heap w !! l = Some c ->
  adapter_type = Ok ty ->
  drv_execute (trace w) c sql = Ok cursor ->
  get_status cursor = Ok st ->
  add_query profile sql model_name w
  = (Ok (l, cursor), with_event w (EvExecute (c_name c) sql)).
Proof.
  intros Hc Hh Hty Hx Hs. unfold add_query.
  unfold bind at 1. rewrite (get_connection_hit _ _ _ _ Hc).
  unfold bind at 1. rewrite (deref_some _ _ _ Hh).
  unfold bind at 1. unfold lift at 1. rewrite Hty.
  unfold bind, get_world, lift, emit, ret. rewrite Hx. simpl.
  by rewrite Hs.
Qed.

Lemma add_query_cached_inv profile sql model_name (w w' : World) l c r :
  connection_cache w !! cached_name model_name = Some l ->
  heap w !! l = Some c ->
  add_query profile sql model_name w = (Ok r, w') ->
  fst r = l /\ w' = with_event w (EvExecute (c_name c) sql).
Proof.
  intros Hc Hh. unfold add_query.
  unfold bind at 1. rewrite (get_connection_hit _ _ _ _ Hc).
  unfold bind at 1. rewrite (deref_some _ _ _ Hh).
  unfold bind at 1. unfold lift at 1.
  destruct adapter_type as [ty|]; [|done].
  unfold bind, get_world, lift, emit, ret.
  destruct (drv_execute (trace w) c sql) as [cursor|]; [|done]. simpl.
  destruct (get_status cursor); [|done].
  by intros [= <- <-].
Qed.

(** X1. A call of [get_connection] for a name that is not cached
    acquires one connection: the record [acquire_connection] builds is
    handed to [open_connection], the opened connection becomes a new
    object cached under that name, and the entries of the other names
    and the connections already stored are left as they were. *)
Theorem get_connection_acquires
    (profile : pydict) (name ty : string) (w : World) (c : Connection) :
  connection_cache w !! name = None ->
  adapter_type = Ok ty ->
  let record := mkConnection ty name "init" false None
                  (dict_pop "threads" (dict_pop "type" profile)) in
  strict_ok record ->
  open_connection record = Ok c ->
  exists w',
    get_connection profile (Some name) w = (Ok (length (heap w)), w') /\
    connection_cache w' = <[name := length (heap w)]> (connection_cache w) /\
    heap w' = (heap w ++ [c])%list /\
    trace w' = (trace w ++ [EvOpenConnection record])%list /\
    (forall other, other <> name ->
       connection_cache w' !! other = connection_cache w !! other) /\
    (forall l c', heap w !! l = Some c' -> heap w' !! l = Some c').
Proof.
  intros Hnone Hty record Hv Hopen.
  assert (Hacq : acquire_connection profile name w
            = (Ok c, with_event w (EvOpenConnection record))).
  { subst record.
    unfold acquire_connection.
    rewrite acquire_connection_result_eq, Hty. simpl.
    unfold bind at 1. unfold lift at 1. simpl.
    unfold bind at 1. rewrite (strict_validate_ok _ _ Hv).
    unfold bind, emit, lift. by rewrite Hopen. }
  eexists. split.
  - unfold get_connection, recursion_limit.
    cbn [get_connection_rec]. unfold bind at 1. unfold cache_lookup at 1.
    rewrite Hnone. unfold bind at 1. unfold lift at 1. rewrite Hty.
    unfold bind at 1. rewrite Hacq. unfold bind at 1. unfold alloc at 1.
    unfold bind at 1. unfold cache_store at 1.
    unfold bind at 1. unfold cache_lookup at 1. cbn [connection_cache].
    rewrite lookup_insert_eq. reflexivity.
  - simpl. split; [done|]. split; [done|]. split; [done|]. split.
    + intros other Hne. by rewrite lookup_insert_ne.
    + intros l c' Hl. by apply lookup_app_l_Some.
Qed.

Lemma emit_inv e (w w' : World) u :
  emit e w = (Ok u, w') -> w' = with_event w e.
Proof. unfold emit. by intros [= <-]. Qed.

Lemma get_world_inv (w w' w0 : World) :
  get_world w = (Ok w0, w') -> w0 = w /\ w' = w.
Proof. unfold get_world. by intros [= <- <-]. Qed.

Lemma lift_inv {X : Type} (r : Result X) (w w' : World) x :
  lift r w = (Ok x, w') -> r = Ok x /\ w' = w.
Proof. unfold lift. by intros [= -> <-]. Qed.

(** X2. When [close] returns, the connection it returns is in state
    [closed] and cached under its name, the driver's close is the last
    thing that reached the driver, and a later [get_connection] for that
    name hands out this closed connection again without acquiring a new
    one. *)
Theorem close_keeps_cached
    (a : Connection) (profile : pydict) (w w' : World) (l : loc) :
  close a w = (Ok l, w') ->
  exists c,
    heap w' !! l = Some c /\ c_state c = "closed" /\
    connection_cache w' !! c_name c = Some l /\
    last (trace w') = Some (EvClose (c_name c)) /\
    get_connection profile (Some (c_name c)) w' = (Ok l, w').
Proof.
  unfold close. intros H. do 2 skip_step H.
  apply bind_ok_inv in H as (c0 & wa & Hd0 & H).
  apply deref_ok_inv in Hd0 as [-> Hc0].
  apply bind_ok_inv in H as (wq & wb & Hw & H).
  apply get_world_inv in Hw as [-> ->].
  apply bind_ok_inv in H as (u & wc & Hl & H).
  apply lift_inv in Hl as [_ ->].
  apply bind_ok_inv in H as (u' & wd & He & H).
  apply emit_inv in He as ->.
  apply bind_ok_inv in H as (c & we & Hd & H).
  apply deref_ok_inv in Hd as [-> Hc]. cbn [with_event heap] in Hc.
  assert (c = c0) as -> by congruence.
  unfold bind, store, cache_store, ret in H. injection H as <- <-.
  exists (set_state "closed" c0).
  change (c_name (set_state "closed" c0)) with (c_name c0).
  cbn [heap connection_cache trace with_event].
  split; [apply list_lookup_insert_eq; by eapply lookup_lt_Some|].
  split; [done|]. split; [apply lookup_insert_eq|]. split.
  - by rewrite last_snoc.
  - apply get_connection_cached. cbn [connection_cache].
    apply lookup_insert_eq.
Qed.

(** X3. When the driver refuses a statement, [add_query] raises what
    the adapter's exception handler makes of the driver's error for that
    statement and connection name, and nothing has changed; when the
    statement ran but reading its status fails, the error goes through
    the same handler and the statement stays executed. *)
Theorem add_query_error_mapping
    (profile : pydict) (sql : string) (model_name : option string)
    (w : World) (l : loc) (c : Connection) (ty : string) :
  connection_cache w !! cached_name model_name = Some l ->
  heap w !! l = Some c ->
  adapter_type = Ok ty ->
  (forall e, drv_execute (trace w) c sql = Raise e ->
     add_query profile sql model_name w
     = (Raise (exception_handler sql (c_name c) e), w)) /\
  (forall cursor e,
     drv_execute (trace w) c sql = Ok cursor ->
     get_status cursor = Raise e ->
     add_query profile sql model_name w
     = (Raise (exception_handler sql (c_name c) e),
        with_event w (EvExecute (c_name c) sql))).
Proof.
  intros Hc Hh Hty. split.
  - intros e He. unfold add_query.
    unfold bind at 1. rewrite (get_connection_hit _ _ _ _ Hc).
    unfold bind at 1. rewrite (deref_some _ _ _ Hh).
    unfold bind at 1. unfold lift at 1. rewrite Hty.
    unfold bind, get_world, lift. by rewrite He.
  - intros cursor e Hx Hs. unfold add_query.
    unfold bind at 1. rewrite (get_connection_hit _ _ _ _ Hc).
    unfold bind at 1. rewrite (deref_some _ _ _ Hh).
    unfold bind at 1. unfold lift at 1. rewrite Hty.
    unfold bind, get_world, lift, emit. rewrite Hx. simpl. by rewrite Hs.
Qed.

(** X4. [begin] sends its [BEGIN] statement through the connection
    cached under [master], whatever name it was called with, and sets
    [transaction_open] on the connection cached under that name. *)
Theorem begin_runs_on_master
    (profile : pydict) (name : string) (w : World) (l lm : loc)
    (c cm : Connection) (ty st : string) (cursor : Cursor) :
  connection_cache w !! name = Some l -> heap w !! l = Some c ->
  c_transaction_open c = false -> strict_ok c ->
  connection_cache w !! "master" = Some lm -> heap w !! lm = Some cm ->
  adapter_type = Ok ty ->
  drv_execute (trace w) cm "BEGIN" = Ok cursor ->
  get_status cursor = Ok st ->
  begin profile name w
  = (Ok l,
     mkWorld (<[name := l]> (connection_cache w))
             (<[l := set_transaction_open true c]> (heap w))
             (trace w ++ [EvExecute (c_name cm) "BEGIN"])).
Proof.
  intros Hc Hh Hf Hv Hm Hhm Hty Hx Hs. unfold begin.
  unfold bind at 1. rewrite (get_connection_cached _ _ _ _ Hc).
  unfold bind at 1. rewrite (deref_some _ _ _ Hh).
  unfold bind at 1. rewrite (strict_validate_ok _ _ Hv). rewrite Hf.
  unfold bind at 1.
  rewrite (add_query_cached _ _ None _ _ _ _ _ _ Hm Hhm Hty Hx Hs).
  unfold bind at 1. rewrite (deref_some l (with_event w _) c Hh).
  reflexivity.
Qed.

(** X5. After [begin] has returned for a connection that carries the
    name it is cached under, [commit] on it succeeds when the driver
    commits, and clears the flag; a second [commit] then raises
    [ProgrammingException]. *)
Theorem begin_commit_commit
    (profile : pydict) (name : string) (w w1 : World) (l : loc)
    (c : Connection) (h : Handle) :
  begin profile name w = (Ok l, w1) ->
  heap w1 !! l = Some c -> c_name c = name ->
  strict_ok c -> strict_ok (set_transaction_open false c) ->
  c_handle c = Some h ->
  drv_commit (trace w1) c = Ok tt ->
  exists w2,
    commit c w1 = (Ok l, w2) /\
    heap w2 !! l = Some (set_transaction_open false c) /\
    trace w2 = (trace w1 ++ [EvCommit name])%list /\
    exists msg,
      commit (set_transaction_open false c) w2
      = (Raise (ProgrammingException msg), w2).
Proof.
  intros Hb Hc Hn Hv Hv' Hh Hd.
  apply begin_ok_inv in Hb as (c0 & wb & Hc0 & ->).
  cbn [heap] in Hc.
  assert (Hlt : l < length (heap wb)) by (by eapply lookup_lt_Some).
  rewrite list_lookup_insert_eq in Hc by done. injection Hc as <-.
  cbn [trace] in Hd. change (c_name (set_transaction_open true c0)) with
    (c_name c0) in Hn.
  set (w1 := mkWorld (<[name:=l]> (connection_cache wb))
               (<[l:=set_transaction_open true c0]> (heap wb)) (trace wb)).
  assert (Hcache : connection_cache w1 !! name = Some l)
    by apply lookup_insert_eq.
  assert (Hheap : heap w1 !! l = Some (set_transaction_open true c0))
    by (by apply list_lookup_insert_eq).
  eexists. split; [|split; [|split]].
  - unfold commit. unfold bind at 1. rewrite (strict_validate_ok _ _ Hv).
    unfold bind at 1. unfold reload.
    change (c_name (set_transaction_open true c0)) with (c_name c0).
    rewrite Hn. rewrite (get_connection_cached _ _ _ _ Hcache).
    unfold bind at 1. rewrite (deref_some _ _ _ Hheap).
    cbn [c_transaction_open set_transaction_open negb].
    unfold bind at 1. unfold get_world at 1.
    unfold bind at 1. unfold lift at 1.
    change (c_handle (set_transaction_open true c0)) with (c_handle c0).
    change (c_handle (set_transaction_open true c0)) with (c_handle c0) in Hh.
    rewrite Hh. change (trace w1) with (trace wb). rewrite Hd.
    unfold bind at 1. unfold emit at 1.
    unfold bind at 1.
    change (c_name (set_transaction_open true c0)) with (c_name c0).
    rewrite Hn.
    match goal with
    | |- context [deref l ?w'] =>
        rewrite (deref_some l w' (set_transaction_open true c0) Hheap)
    end.
    unfold bind, store, cache_store, ret. reflexivity.
  - unfold w1. cbn [heap]. rewrite list_lookup_insert_eq.
    + reflexivity.
    + by rewrite length_insert.
  - reflexivity.
  - eexists. unfold commit.
    unfold bind at 1. rewrite (strict_validate_ok _ _ Hv').
    unfold bind at 1. unfold reload.
    change (c_name (set_transaction_open false (set_transaction_open true c0)))
      with (c_name c0). rewrite Hn.
    rewrite get_connection_cached with (l := l)
      by (cbn [connection_cache c_name set_transaction_open]; rewrite Hn;
          apply lookup_insert_eq).
    unfold bind at 1.
    rewrite deref_some with
      (c := set_transaction_open false (set_transaction_open true c0)).
    + reflexivity.
    + unfold w1. cbn [heap]. apply list_lookup_insert_eq.
      by rewrite length_insert.
Qed.

(** The statements of a list as they reach the driver in turn. *)
Lemma for_each_add_query profile model_name (sqls : list string) :
  forall (w w' : World) l l0 l' c,
    connection_cache w !! cached_name model_name = Some l ->
    heap w !! l = Some c ->
    for_each sqls
      (fun _ sql => r <- add_query profile sql model_name ;; ret (fst r))
      l0 w = (Ok l', w') ->
    (l' = l \/ sqls = [] /\ l' = l0) /\
    w' = mkWorld (connection_cache w) (heap w)
           (trace w ++ (EvExecute (c_name c) <$> sqls)).
Proof.
  induction sqls as [|sql sqls IH]; intros w w' l l0 l' c Hc Hh H.
  - cbn in H. unfold ret in H. injection H as <- <-.
    split; [by right|]. destruct w. cbn. by rewrite app_nil_r.
  - cbn [for_each] in H. apply bind_ok_inv in H as (l1 & wa & Ha & H).
    apply bind_ok_inv in Ha as (r & wb & Hq & Ha).
    unfold ret in Ha. injection Ha as <- <-.
    apply (add_query_cached_inv _ _ _ _ _ _ _ _ Hc Hh) in Hq as [Hl ->].
    apply (IH _ _ l _ _ c) in H; [|done|done].
    destruct H as [Hl' ->]. split.
    + left. destruct Hl' as [->|[_ ->]]; done.
    + cbn. by rewrite <- app_assoc.
Qed.

(** X6. [execute_all] on a cached connection returns that connection
    and, when it returns, the driver has been sent exactly the given
    statements, in their order, on that connection; for an empty list
    nothing is sent. *)
Theorem execute_all_in_order
    (profile : pydict) (sqls : list string) (model_name : option string)
    (w w' : World) (l l' : loc) (c : Connection) :
  connection_cache w !! cached_name model_name = Some l ->
  heap w !! l = Some c ->
  execute_all profile sqls model_name w = (Ok l', w') ->
  l' = l /\
  connection_cache w' = connection_cache w /\ heap w' = heap w /\
  trace w' = (trace w ++ (EvExecute (c_name c) <$> sqls))%list.
Proof.
  intros Hc Hh. unfold execute_all.
  unfold bind at 1. rewrite (get_connection_hit _ _ _ _ Hc).
  destruct sqls as [|sql sqls].
  - unfold ret. intros [= <- <-]. by rewrite app_nil_r.
  - intros H. apply (for_each_add_query _ _ _ _ _ _ _ _ _ Hc Hh) in H.
    destruct H as [[->|[? _]] ->]; done.
Qed.

(** X7. [drop] with a relation type other than [view] and [table]
    raises [RuntimeError] and nothing is acquired or sent; with [view]
    or [table] on a cached connection it sends the one matching
    [drop ... if exists ... cascade] statement, naming the schema of the
    profile. *)
Theorem drop_by_relation_type
    (profile : pydict) (relation relation_type : pyval)
    (model_name : option string) (w : World) :
  (relation_type <> PStr "view" -> relation_type <> PStr "table" ->
   exists msg,
     drop profile relation relation_type model_name w
     = (Raise (RuntimeError msg), w)) /\
  (forall l c ty,
     connection_cache w !! cached_name model_name = Some l ->
     heap w !! l = Some c -> adapter_type = Ok ty ->
     (forall sql, exists cursor st,
        drv_execute (trace w) c sql = Ok cursor /\
        get_status cursor = Ok st) ->
     drop profile relation (PStr "view") model_name w
     = (Ok tt, with_event w (EvExecute (c_name c)
                               (drop_view_sql profile relation))) /\
     drop profile relation (PStr "table") model_name w
     = (Ok tt, with_event w (EvExecute (c_name c)
                               (drop_table_sql profile relation)))).
Proof.
  split.
  - intros Hv Ht. unfold drop.
    rewrite !py_eq_str_false by done. eexists. reflexivity.
  - intros l c ty Hc Hh Hty Hdrv. split.
    + destruct (Hdrv (drop_view_sql profile relation))
        as (cursor & st & Hx & Hs).
      unfold drop, drop_view. cbn [py_eq_str]. rewrite String.eqb_refl.
      unfold bind.
      by rewrite (add_query_cached _ _ _ _ _ _ _ _ _ Hc Hh Hty Hx Hs).
    + destruct (Hdrv (drop_table_sql profile relation))
        as (cursor & st & Hx & Hs).
      unfold drop, drop_table.
      change (py_eq_str (PStr "table") "view") with false.
      cbn [py_eq_str]. rewrite String.eqb_refl. unfold bind.
      by rewrite (add_query_cached _ _ _ _ _ _ _ _ _ Hc Hh Hty Hx Hs).
Qed.

Lemma cleanup_loop (w : World) (entries : list (string * loc)) :
  forall acc,
    Forall (fun entry => is_Some (heap w !! snd entry)) entries ->
    for_each entries cleanup_step acc w
    = (Ok (acc ++ cleanup_lines w entries)%list, w).
Proof.
  induction entries as [|[name l] entries IH]; intros acc Hall.
  - cbn. unfold ret. by rewrite app_nil_r.
  - apply Forall_cons in Hall as [[c Hc] Hall]. cbn [snd] in Hc.
    cbn [for_each]. unfold bind at 1. unfold cleanup_step at 1.
    cbn [snd fst]. unfold bind at 1.
    rewrite (deref_some _ _ _ Hc). unfold ret at 1.
    rewrite IH by done. unfold cleanup_lines. cbn [fmap list_fmap snd fst].
    rewrite Hc. by rewrite <- app_assoc.
Qed.

(** X8. [cleanup_connections] empties the cache and logs one line for
    every cached connection, saying it was left open unless its state
    is [closed]; it closes nothing: the connections keep their state
    and nothing reaches the driver. *)
Theorem cleanup_connections_clears (w : World) :
  (forall name l, connection_cache w !! name = Some l ->
                  is_Some (heap w !! l)) ->
  exists messages,
    cleanup_connections w = (Ok messages, mkWorld ∅ (heap w) (trace w)) /\
    length messages = size (connection_cache w) /\
    (forall name l c,
       connection_cache w !! name = Some l -> heap w !! l = Some c ->
       cleanup_message name c ∈ messages).
Proof.
  intros Hwf.
  assert (Hall : Forall (fun entry => is_Some (heap w !! snd entry))
                        (map_to_list (connection_cache w))).
  { apply Forall_forall. intros [name l] Hin.
    apply elem_of_map_to_list in Hin. by eapply Hwf. }
  exists (cleanup_lines w (map_to_list (connection_cache w))). split.
  - unfold cleanup_connections. unfold bind at 1. unfold get_world at 1.
    cbv beta iota. unfold bind at 1.
    match goal with
    | |- context [for_each ?es ?f ?a ?w0] => set (run := for_each es f a w0)
    end.
    assert (Hrun : run = (Ok ([] ++ cleanup_lines w
                                (map_to_list (connection_cache w)))%list, w))
      by (by apply cleanup_loop).
    rewrite Hrun. reflexivity.
  - split.
    + unfold cleanup_lines. by rewrite length_fmap, length_map_to_list.
    + intros name l c Hc Hh. unfold cleanup_lines.
      apply list_elem_of_fmap. exists (name, l). cbn [fst snd].
      rewrite Hh. split; [done|]. by apply elem_of_map_to_list.
Qed.

End ConnectionFacts.

(** ** The transaction protocol *)

Section TransactionFacts.
Context `{A : Adapter}.

Lemma strict_validate_fails (c : Connection) (e : exn) (w : World) :
  STRICT_MODE = true -> validate_connection c = Raise e ->
  strict_validate c w = (Raise e, w).
Proof.
  intros Hs Hv. unfold strict_validate, lift. by rewrite Hs, Hv.
Qed.

Lemma begin_flag_set profile name (w : World) l c :
  connection_cache w !! name = Some l -> heap w !! l = Some c ->
  strict_ok c -> c_transaction_open c = true ->
  exists msg, begin profile name w = (Raise (ProgrammingException msg), w).
Proof.
  intros Hc Hh Hv Ht. eexists. unfold begin.
  unfold bind at 1. rewrite (get_connection_cached _ _ _ _ Hc).
  unfold bind at 1. rewrite (deref_some _ _ _ Hh).
  unfold bind at 1. rewrite (strict_validate_ok _ _ Hv).
  rewrite Ht. reflexivity.
Qed.

Lemma begin_contract_first profile name (w : World) l c e :
  connection_cache w !! name = Some l -> heap w !! l = Some c ->
  STRICT_MODE = true -> validate_connection c = Raise e ->
  begin profile name w = (Raise e, w).
Proof.
  intros Hc Hh Hs Hv. unfold begin.
  unfold bind at 1. rewrite (get_connection_cached _ _ _ _ Hc).
  unfold bind at 1. rewrite (deref_some _ _ _ Hh).
  unfold bind at 1. by rewrite (strict_validate_fails _ _ _ Hs Hv).
Qed.

Lemma begin_returns profile name (w : World) l c lm cm ty cursor st :
  connection_cache w !! name = Some l -> heap w !! l = Some c ->
  strict_ok c -> c_transaction_open c = false ->
  connection_cache w !! "master" = Some lm -> heap w !! lm = Some cm ->
  adapter_type = Ok ty ->
  drv_execute (trace w) cm "BEGIN" = Ok cursor ->
  get_status cursor = Ok st ->
  begin profile name w
  = (Ok l,
     mkWorld (<[name := l]> (connection_cache w))
             (<[l := set_transaction_open true c]> (heap w))
             (trace w ++ [EvExecute (c_name cm) "BEGIN"])).
Proof.
  intros Hc Hh Hv Hf Hm Hhm Hty Hx Hs. unfold begin.
  unfold bind at 1. rewrite (get_connection_cached _ _ _ _ Hc).
  unfold bind at 1. rewrite (deref_some _ _ _ Hh).
  unfold bind at 1. rewrite (strict_validate_ok _ _ Hv). rewrite Hf.
  unfold bind at 1.
  rewrite (add_query_cached _ _ None _ _ _ _ _ _ Hm Hhm Hty Hx Hs).
  unfold bind at 1. rewrite (deref_some l (with_event w _) c Hh).
  reflexivity.
Qed.

Lemma commit_flag_clear a (w : World) l c :
  strict_ok a ->
  connection_cache w !! c_name a = Some l -> heap w !! l = Some c ->
  c_transaction_open c = false ->
  exists msg, commit a w = (Raise (ProgrammingException msg), w).
Proof.
  intros Hv Hc Hh Ht. eexists. unfold commit.
  unfold bind at 1. rewrite (strict_validate_ok _ _ Hv).
  unfold bind at 1. unfold reload.
  rewrite (get_connection_cached _ _ _ _ Hc).
  unfold bind at 1. rewrite (deref_some _ _ _ Hh).
  rewrite Ht. reflexivity.
Qed.

Lemma rollback_flag_clear a (w : World) l c :
  strict_ok a ->
  connection_cache w !! c_name a = Some l -> heap w !! l = Some c ->
  c_transaction_open c = false ->
  exists msg, rollback a w = (Raise (ProgrammingException msg), w).
Proof.
  intros Hv Hc Hh Ht. eexists. unfold rollback.
  unfold bind at 1. rewrite (strict_validate_ok _ _ Hv).
  unfold bind at 1. unfold reload.
  rewrite (get_connection_cached _ _ _ _ Hc).
  unfold bind at 1. rewrite (deref_some _ _ _ Hh).
  rewrite Ht. reflexivity.
Qed.

Lemma commit_returns a (w : World) l c h :
  strict_ok a ->
  connection_cache w !! c_name a = Some l -> heap w !! l = Some c ->
  c_transaction_open c = true -> c_handle c = Some h ->
  drv_commit (trace w) c = Ok tt ->
  commit a w = (Ok l, end_transaction_world w l c (EvCommit (c_name c))).
Proof.
  intros Hv Hc Hh Ht Hhandle Hd. unfold commit.
  unfold bind at 1. rewrite (strict_validate_ok _ _ Hv).
  unfold bind at 1. unfold reload.
  rewrite (get_connection_cached _ _ _ _ Hc).
  unfold bind at 1. rewrite (deref_some _ _ _ Hh).
  rewrite Ht. cbn [negb].
  unfold bind at 1. unfold get_world at 1.
  unfold bind at 1. unfold lift at 1. rewrite Hhandle, Hd.
  unfold bind at 1. unfold emit at 1.
  unfold bind at 1.
  match goal with
  | |- context [deref l ?w'] => rewrite (deref_some l w' c Hh)
  end.
  reflexivity.
Qed.

Lemma rollback_returns a (w : World) l c h :
  strict_ok a ->
  connection_cache w !! c_name a = Some l -> heap w !! l = Some c ->
  c_transaction_open c = true -> c_handle c = Some h ->
  drv_rollback (trace w) c = Ok tt ->
  rollback a w = (Ok l, end_transaction_world w l c (EvRollback (c_name c))).
Proof.
  intros Hv Hc Hh Ht Hhandle Hd. unfold rollback.
  unfold bind at 1. rewrite (strict_validate_ok _ _ Hv).
  unfold bind at 1. unfold reload.
  rewrite (get_connection_cached _ _ _ _ Hc).
  unfold bind at 1. rewrite (deref_some _ _ _ Hh).
  rewrite Ht. cbn [negb].
  unfold bind at 1. unfold get_world at 1.
  unfold bind at 1. unfold lift at 1. rewrite Hhandle, Hd.
  unfold bind at 1. unfold emit at 1.
  unfold bind at 1.
  match goal with
  | |- context [deref l ?w'] => rewrite (deref_some l w' c Hh)
  end.
  reflexivity.
Qed.

Lemma end_transaction_world_flag (w : World) l c e :
  heap w !! l = Some c ->
  heap (end_transaction_world w l c e) !! l
  = Some (set_transaction_open false c) /\
  connection_cache (end_transaction_world w l c e) !! c_name c = Some l.
Proof.
  intros Hh. unfold end_transaction_world. cbn [heap connection_cache].
  split.
  - apply list_lookup_insert_eq. by eapply lookup_lt_Some.
  - apply lookup_insert_eq.
Qed.

(** C5, as the code has it. The flag that decides is the one of the
    connection in the cache: [begin] raises [ProgrammingException] when
    the connection cached under the name has [transaction_open] set,
    [commit] and [rollback] raise it when the connection cached under
    the name of their argument, which is the one they reload and act
    on, has it clear. In strict mode the contract check comes first and
    its failure is what is raised. Otherwise, when the driver accepts
    the [BEGIN] statement, the commit or the rollback, the call returns
    the cached connection with the flag set by [begin] and cleared by
    [commit] and [rollback], stored in the cache under its name; and
    whenever one of them returns, that is the state it leaves. *)
Theorem transaction_protocol :
  (forall profile name (w : World) l c,
     connection_cache w !! name = Some l -> heap w !! l = Some c ->
     strict_ok c -> c_transaction_open c = true ->
     exists msg, begin profile name w = (Raise (ProgrammingException msg), w))
  /\
  (forall a (w : World) l c,
     strict_ok a ->
     connection_cache w !! c_name a = Some l -> heap w !! l = Some c ->
     c_transaction_open c = false ->
     (exists msg, commit a w = (Raise (ProgrammingException msg), w)) /\
     (exists msg, rollback a w = (Raise (ProgrammingException msg), w)))
  /\
  (forall profile name (w : World) l c e,
     connection_cache w !! name = Some l -> heap w !! l = Some c ->
     STRICT_MODE = true -> validate_connection c = Raise e ->
     begin profile name w = (Raise e, w))
  /\
  (forall a (w : World) e,
     STRICT_MODE = true -> validate_connection a = Raise e ->
     commit a w = (Raise e, w) /\ rollback a w = (Raise e, w))
  /\
  (forall profile name (w : World) l c lm cm ty cursor st,
     connection_cache w !! name = Some l -> heap w !! l = Some c ->
     strict_ok c -> c_transaction_open c = false ->
     connection_cache w !! "master" = Some lm -> heap w !! lm = Some cm ->
     adapter_type = Ok ty ->
     drv_execute (trace w) cm "BEGIN" = Ok cursor ->
     get_status cursor = Ok st ->
     exists w',
       begin profile name w = (Ok l, w') /\
       heap w' !! l = Some (set_transaction_open true c) /\
       connection_cache w' !! name = Some l)
  /\
  (forall a (w : World) l c h,
     strict_ok a ->
     connection_cache w !! c_name a = Some l -> heap w !! l = Some c ->
     c_transaction_open c = true -> c_handle c = Some h ->
     (drv_commit (trace w) c = Ok tt ->
      exists w',
        commit a w = (Ok l, w') /\
        heap w' !! l = Some (set_transaction_open false c) /\
        connection_cache w' !! c_name c = Some l /\
        trace w' = (trace w ++ [EvCommit (c_name c)])%list) /\
     (drv_rollback (trace w) c = Ok tt ->
      exists w',
        rollback a w = (Ok l, w') /\
        heap w' !! l = Some (set_transaction_open false c) /\
        connection_cache w' !! c_name c = Some l /\
        trace w' = (trace w ++ [EvRollback (c_name c)])%list))
  /\
  (forall profile name (w w' : World) l,
     begin profile name w = (Ok l, w') ->
     connection_cache w' !! name = Some l /\
     exists c, heap w' !! l = Some c /\ c_transaction_open c = true)
  /\
  (forall a (w w' : World) l,
     commit a w = (Ok l, w') \/ rollback a w = (Ok l, w') ->
     exists c, heap w' !! l = Some c /\ c_transaction_open c = false /\
               connection_cache w' !! c_name c = Some l).
Proof.
  split; [exact begin_flag_set|].
  split; [intros a w l c Hv Hc Hh Ht; split;
          [by eapply commit_flag_clear|by eapply rollback_flag_clear]|].
  split; [exact begin_contract_first|].
  split.
  { intros a w e Hs Hv. split.
    - unfold commit. unfold bind at 1.
      by rewrite (strict_validate_fails _ _ _ Hs Hv).
    - unfold rollback. unfold bind at 1.
      by rewrite (strict_validate_fails _ _ _ Hs Hv). }
  split.
  { intros profile name w l c lm cm ty cursor st Hc Hh Hv Hf Hm Hhm Hty Hx Hs.
    eexists. split; [by eapply begin_returns|].
    cbn [heap connection_cache]. split.
    - apply list_lookup_insert_eq. by eapply lookup_lt_Some.
    - apply lookup_insert_eq. }
  split.
  { intros a w l c h Hv Hc Hh Ht Hhandle. split; intros Hd; eexists.
    - split; [by eapply commit_returns|].
      destruct (end_transaction_world_flag w l c (EvCommit (c_name c)) Hh).
      done.
    - split; [by eapply rollback_returns|].
      destruct (end_transaction_world_flag w l c (EvRollback (c_name c)) Hh).
      done. }
  split.
  - intros profile name w w' l H.
    apply begin_ok_inv in H as (c & w1 & Hc & ->). simpl. split.
    + apply lookup_insert_eq.
    + exists (set_transaction_open true c). split; [|done].
      apply list_lookup_insert_eq. by eapply lookup_lt_Some.
  - intros a w w' l [H|H].
    + unfold commit in H. do 2 skip_step H.
      apply bind_ok_inv in H as (c & wd & _ & H).
      destruct (c_transaction_open c); [|done]. simpl in H.
      do 3 skip_step H.
      apply close_transaction_ok in H as [-> H]. exact H.
    + unfold rollback in H. do 2 skip_step H.
      apply bind_ok_inv in H as (c & wd & _ & H).
      destruct (c_transaction_open c); [|done]. simpl in H.
      do 3 skip_step H.
      apply close_transaction_ok in H as [-> H]. exact H.
Qed.

End TransactionFacts.

Section ExpandFacts.
Context `{A : Adapter}.

Lemma dict_get_elem {V : Type} (k : string) (v : V) d :
  dict_get k d = Some v -> (k, v) ∈ d.
Proof.
  induction d as [|[k0 v0] d IH]; [done|]. simpl.
  destruct (String.eqb_spec k k0) as [->|].
  - intros [= ->]. by left.
  - intros H. right. by apply IH.
Qed.

Lemma expand_loop (profile : pydict) (to_schema to_table : pyval)
    (model_name : option string) (target_columns : list (string * Column))
    (kvs : list (string * Column)) :
  forall (w w' : World),
    for_each kvs
      (fun _ kv =>
         let '(column_name, reference_column) := kv in
         match dict_get column_name target_columns with
         | Some target_column =>
             if can_expand_to target_column reference_column then
               size <- lift (string_size reference_column) ;;
               let new_type := string_type size in
               lift (alter_column_type profile to_schema to_table column_name
                                       new_type model_name) ;;;
               emit (EvAlterColumnType to_schema to_table column_name new_type)
             else ret tt
         | None => ret tt
         end) tt w = (Ok tt, w') ->
    w' = mkWorld (connection_cache w) (heap w)
           (trace w ++ alter_events to_schema to_table kvs target_columns).
Proof.
  induction kvs as [|[k r] kvs IH]; intros w w' H.
  - cbn in H. unfold ret in H. injection H as <-. destruct w. cbn.
    by rewrite app_nil_r.
  - cbn [for_each] in H. apply bind_ok_inv in H as ([] & wa & Hstep & H).
    apply IH in H as ->. unfold alter_events. cbn [flat_map fst snd].
    fold (alter_events to_schema to_table kvs target_columns).
    destruct (dict_get k target_columns) as [t|].
    + destruct (can_expand_to t r).
      * apply bind_ok_inv in Hstep as (size & wb & Hs & Hstep).
        apply lift_inv in Hs as [-> ->].
        apply bind_ok_inv in Hstep as (u & wc & Hl & Hstep).
        apply lift_inv in Hl as [_ ->].
        apply emit_inv in Hstep as ->. cbn. by rewrite <- app_assoc.
      * unfold ret in Hstep. injection Hstep as <-. done.
    + unfold ret in Hstep. injection Hstep as <-. done.
Qed.

(** X9. When [expand_target_column_types] returns, the columns it has
    asked the adapter to alter are, in the order of the reference
    table, those whose name is also a column of the target and whose
    target column can expand to the reference column, each to the
    string type of the reference column's size. A column that the
    target table lacks is never altered. *)
Theorem expand_target_column_types_alters
    (profile : pydict) (temp_table to_schema to_table : pyval)
    (model_name : option string) (w w1 w2 w' : World)
    (ref_cols tgt_cols : list Column) :
  get_columns_in_table profile PNone temp_table model_name w
    = (Ok ref_cols, w1) ->
  get_columns_in_table profile to_schema to_table model_name w1
    = (Ok tgt_cols, w2) ->
  expand_target_column_types profile temp_table to_schema to_table
                             model_name w = (Ok tt, w') ->
  connection_cache w' = connection_cache w2 /\ heap w' = heap w2 /\
  trace w' = (trace w2 ++
              alter_events to_schema to_table (columns_by_name ref_cols)
                           (columns_by_name tgt_cols))%list /\
  (forall s t column new_type,
     EvAlterColumnType s t column new_type
       ∈ alter_events to_schema to_table (columns_by_name ref_cols)
                      (columns_by_name tgt_cols) ->
     s = to_schema /\ t = to_table /\
     exists target reference size,
       target ∈ tgt_cols /\ reference ∈ ref_cols /\
       col_name target = column /\ col_name reference = column /\
       can_expand_to target reference = true /\
       string_size reference = Ok size /\
       new_type = string_type size).
Proof.
  intros Href Htgt H. unfold expand_target_column_types in H.
  unfold bind at 1 in H. rewrite Href in H.
  unfold bind at 1 in H. rewrite Htgt in H.
  apply expand_loop in H as ->. cbn.
  split; [done|]. split; [done|]. split; [done|].
  intros s t column new_type Hin. unfold alter_events in Hin.
  apply list_elem_of_In, in_flat_map in Hin as ([k r] & Hkv & Hin).
  apply list_elem_of_In in Hkv. cbn [fst snd] in Hin.
  destruct (dict_get k (columns_by_name tgt_cols)) as [tc|] eqn:Ht;
    [|by destruct Hin].
  destruct (can_expand_to tc r) eqn:Hcan; [|by destruct Hin].
  destruct (string_size r) as [size|] eqn:Hsize; [|by destruct Hin].
  destruct Hin as [[= <- <- <- <-]|[]].
  apply dict_get_elem, columns_by_name_elem in Ht as [Htc Hn].
  apply columns_by_name_elem in Hkv as [Hr Hn'].
  split; [done|]. split; [done|]. by exists tc, r, size.
Qed.

End ExpandFacts.

Section SplitMoreFacts.
Context `{A : Adapter}.
Implicit Types (t x g cur : string).

Lemma prefix_split p t :
  String.prefix p t = true -> exists x, t = p +:+ x.
Proof.
  revert t. induction p as [|a p IH]; intros t.
  - intros _. by exists t.
  - destruct t as [|b t]; [done|]. rewrite prefix_cons.
    destruct (ascii_dec a b) as [->|]; [|done].
    intros [x ->]%IH. by exists x.
Qed.

Lemma length_append t x :
  String.length (t +:+ x) = String.length t + String.length x.
Proof.
  induction t as [|c t IH]; [done|]. rewrite append_cons. simpl.
  by rewrite IH.
Qed.

Lemma re_split_go_rejoin (n : nat) :
  forall t cur,
    String.length t <= n ->
    (rejoin_text (re_split_go InText cur t) = cur +:+ t /\
     Nat.odd (length (re_split_go InText cur t)) = true) /\
    (rejoin_group (re_split_go InGroup cur t) = "-- " +:+ cur +:+ t /\
     Nat.even (length (re_split_go InGroup cur t)) = true).
Proof.
  induction n as [|n IH]; intros t cur Hlen.
  - destruct t; [|simpl in Hlen; lia]. cbn [re_split_go].
    cbn [rejoin_text rejoin_group]. rewrite !append_nil_r. done.
  - destruct t as [|c t].
    { cbn [re_split_go rejoin_text rejoin_group]. rewrite !append_nil_r.
      done. }
    simpl in Hlen. split.
    + cbn [re_split_go].
      destruct (String.prefix marker_start (String c t)) eqn:Hp.
      * apply prefix_split in Hp as [x Hx].
        assert (Hgo : cur :: re_split_go (SkipDashes 1) "" t
                      = re_split_go InText cur (marker_start +:+ x)).
        { rewrite <- Hx. cbn [re_split_go].
          assert (String.prefix marker_start (String c t) = true) as ->
            by (rewrite Hx; destruct x; reflexivity).
          reflexivity. }
        rewrite Hgo, re_split_marker.
        destruct (IH ("DBT_OPERATION " +:+ x) "") as [_ [Hj He]].
        { assert (String.length (String c t)
                  = String.length (marker_start +:+ x)) as Hl by (by rewrite Hx).
          rewrite length_append in Hl. rewrite length_append.
          simpl in Hl. simpl. lia. }
        cbn [rejoin_text length]. rewrite Hj, Hx. split.
        -- rewrite append_nil_l. reflexivity.
        -- rewrite Nat.odd_succ. exact He.
      * destruct (IH t (cur +:+ char_str c)) as [[Hj Ho] _]; [lia|].
        rewrite Hj, Ho. by rewrite append_assoc.
    + cbn [re_split_go]. destruct (Ascii.eqb c newline) eqn:Hc.
      * apply Ascii.eqb_eq in Hc as ->.
        destruct (IH t (char_str newline)) as [[Hj Ho] _]; [lia|].
        cbn [rejoin_group length]. rewrite Hj. split; [done|].
        by rewrite Nat.even_succ.
      * destruct (IH t (cur +:+ char_str c)) as [_ [Hj He]]; [lia|].
        rewrite Hj, He. by rewrite append_assoc.
Qed.

(** X10. The split of [execute_model] loses nothing: for every text,
    the parts, with the dashes and the space put back before each
    marker group, concatenate to the text again; and their number is
    odd, so the last part is always a text. *)
Theorem re_split_rejoin (text : string) :
  rejoin_text (re_split text) = text /\
  Nat.odd (length (re_split text)) = true.
Proof.
  destruct (re_split_go_rejoin (String.length text) text "") as [H _];
    [done|].
  exact H.
Qed.

Lemma prefix_marker_payload g :
  String.prefix "DBT_OPERATION {" ("DBT_OPERATION " +:+ g)
  = String.prefix "{" g.
Proof. destruct g as [|b [|b' g]]; reflexivity. Qed.

Lemma substring_marker_payload g :
  substring 14 (String.length ("DBT_OPERATION " +:+ g) - 14)
            ("DBT_OPERATION " +:+ g) = g.
Proof.
  change (substring 0 (String.length g - 0) g = g).
  by rewrite Nat.sub_0_r, substring_all.
Qed.

Lemma match_operation_malformed g :
  contains_char newline g = false -> instruction_ok g = false ->
  match_operation ("DBT_OPERATION " +:+ g) = None.
Proof.
  intros Hn Hok. unfold match_operation.
  rewrite prefix_marker_payload, substring_marker_payload.
  destruct (String.prefix "{" g) eqn:Hp; [|done].
  assert (Hnl : ends_with_char newline g = false).
  { destruct (ends_with_char newline g) eqn:E; [|done].
    apply ends_with_char_contains in E. congruence. }
  rewrite Hnl, Hn. unfold instruction_ok in Hok.
  rewrite Hp, Hn in Hok. simpl in Hok.
  rewrite andb_true_r in Hok. by rewrite Hok.
Qed.

(** X11. A marker line whose payload is not one braced line is not an
    operation: after a text of whole lines, [execute_model] runs the
    text, then sends the line itself, without its dashes, to the
    database as a statement, then the empty text after it. *)
Theorem malformed_marker_is_executed (name : option string) (t0 g : string) :
  has_marker t0 = false -> whole_lines t0 = true ->
  String.prefix "DBT_OPERATION {" t0 = false ->
  contains_char newline g = false -> instruction_ok g = false ->
  execute_model_actions (mkModel name (t0 +:+ marker_start +:+ g))
  = [RunStatement t0; RunStatement ("DBT_OPERATION " +:+ g);
     RunStatement ""].
Proof.
  intros Hm Hl Hp Hn Hok. unfold execute_model_actions, re_split.
  cbn [wrapped_sql].
  rewrite re_split_text by (by apply marker_free_whole_lines).
  rewrite re_split_marker, append_nil_l.
  replace ("DBT_OPERATION " +:+ g) with (("DBT_OPERATION " +:+ g) +:+ "")
    at 1 by apply append_nil_r.
  rewrite re_split_group.
  - rewrite append_nil_l. cbn [re_split_go fmap list_fmap].
    unfold classify_part.
    by rewrite (match_operation_text _ Hp), (match_operation_malformed _ Hn Hok).
  - rewrite contains_char_app, Hn. reflexivity.
Qed.

(** X12. Compiled SQL that is exactly an operation text, without the
    dashes, is dispatched and no statement runs: [execute_model] then
    raises [UnboundLocalError] for the cursor it never assigned, after
    the operation has had its effects. *)
Theorem execute_model_without_statement
    (profile : pydict) (name : option string) (text instruction_string : string)
    (instruction function kwargs : pyval) (w w1 : World) :
  has_marker text = false ->
  match_operation text = Some instruction_string ->
  yaml_safe_load instruction_string = Ok instruction ->
  py_getitem instruction "function" = Ok function ->
  py_getitem instruction "args" = Ok kwargs ->
  dispatch_operation profile (mkModel name text) function kwargs w
    = (Ok tt, w1) ->
  execute_model profile (mkModel name text) w
  = (Raise (UnboundLocalError "cursor"), w1).
Proof.
  intros Hm Hop Hy Hf Hk Hd. unfold execute_model, re_split.
  cbn [wrapped_sql].
  replace text with (text +:+ "") at 1 by apply append_nil_r.
  rewrite re_split_text by (by apply marker_free_last).
  rewrite append_nil_l. cbn [re_split_go for_each].
  unfold bind at 1. unfold bind at 1. unfold execute_part. rewrite Hop.
  unfold bind at 1. unfold lift at 1. rewrite Hy.
  unfold bind at 1. unfold lift at 1. rewrite Hf.
  unfold bind at 1. unfold lift at 1. rewrite Hk.
  unfold bind at 1. rewrite Hd. reflexivity.
Qed.

End SplitMoreFacts.

(** ** Further properties of the template client and the parser *)

Section RenderFacts.
Context `{P : ParserEnv}.

(** X14. [get_rendered] never lets a jinja2 [TemplateSyntaxError] or
    [UndefinedError] out: whatever it raises of those kinds comes out
    as a compiler error; a template that does not parse gives the
    compiler error with the node's name and jinja2's message, and the
    render state is untouched. *)
Theorem get_rendered_error_kinds
    (text : pyval) (ctx : list (string * CtxEntry)) (node : pydict)
    (silent : bool) (st : RenderState) :
  (forall e st',
     get_rendered text ctx node silent st = (Raise e, st') ->
     (forall msg, e <> TemplateSyntaxError msg) /\
     (forall msg, e <> UndefinedError msg)) /\
  (forall msg,
     jinja_from_string (py_str text) = Raise (TemplateSyntaxError msg) ->
     get_rendered text ctx node silent st
     = (Raise (CompilerError (py_get node "name") msg), st)).
Proof.
  split.
  - intros e st'. unfold get_rendered.
    destruct (jinja_from_string _) as [ops|e0].
    + destruct (run_ops silent ctx node ops st) as [[vs|e1] st1]; [done|].
      intros [= <- _]. by destruct e1.
    + intros [= <- _]. by destruct e0.
  - intros msg Hs. unfold get_rendered. by rewrite Hs.
Qed.

End RenderFacts.

Section ParserMoreFacts.
Context `{P : ParserEnv}.

(** X15. Whatever its arguments, [parse_node] returns no node: it
    raises what computing the fqn or the source config raises, and
    otherwise the [TypeError] of its call of [get_rendered]; nothing is
    rendered or printed. *)
Theorem parse_node_never_returns
    (node : pydict) (node_path : string)
    (root package all_projects : pyval)
    (tags fqn_extra : option (list pyval)) :
  exists e,
    parse_node node node_path root package all_projects tags fqn_extra
    = (Raise e, []) /\
    (is_ok (parse_node_prepare node root package fqn_extra) = true ->
     e = unexpected_capture_macros).
Proof.
  rewrite parse_node_render_call_rejected.
  destruct (parse_node_prepare node root package fqn_extra) as [r|e].
  - by exists unexpected_capture_macros.
  - by exists e.
Qed.

Lemma dot_join_inj (t t' x x' : string) :
  contains_char "." t = false -> contains_char "." t' = false ->
  t +:+ "." +:+ x = t' +:+ "." +:+ x' -> t = t' /\ x = x'.
Proof.
  revert t'. induction t as [|c t IH]; intros t' Ht Ht'.
  - destruct t' as [|c' t'].
    + change (String "." x = String "." x' -> "" = "" /\ x = x').
      by intros [= ->].
    + change (String "." x = String c' (t' +:+ "." +:+ x') ->
              "" = String c' t' /\ x = x').
      intros [= <- _]. rewrite contains_char_cons in Ht'.
      by rewrite Ascii.eqb_refl in Ht'.
  - rewrite contains_char_cons in Ht.
    destruct (Ascii.eqb "." c) eqn:Hc; [done|].
    destruct t' as [|c' t'].
    + change (String c (t +:+ "." +:+ x) = String "." x' ->
              String c t = "" /\ x = x').
      intros [= -> _]. by rewrite Ascii.eqb_refl in Hc.
    + change (String c (t +:+ "." +:+ x) = String c' (t' +:+ "." +:+ x') ->
              String c t = String c' t' /\ x = x').
      intros [= -> Heq]. rewrite contains_char_cons, Hc in Ht'.
      apply IH in Heq as [-> ->]; done.
Qed.

(** X16. Identifiers built by [get_path] from a resource type and a
    package name that contain no dot determine their three components:
    two such identifiers are equal only when type, package and name
    are. *)
Theorem get_path_injective (r p n r' p' n' : string) :
  contains_char "." r = false -> contains_char "." p = false ->
  contains_char "." r' = false -> contains_char "." p' = false ->
  get_path (PStr r) (PStr p) (PStr n) = get_path (PStr r') (PStr p') (PStr n') ->
  r = r' /\ p = p' /\ n = n'.
Proof.
  intros Hr Hp Hr' Hp'. unfold get_path. cbn [py_str]. intros H.
  apply dot_join_inj in H as [-> H]; [|done|done].
  apply dot_join_inj in H as [-> ->]; done.
Qed.

(** X19. Not every malformed schema test is skipped: a [not_null] or
    [unique] test whose model name is not a string, and a
    [relationships] mapping whose [to] entry is missing or not a
    string, make [parse_schema_test] raise [TypeError]. *)
Theorem parse_schema_test_type_errors
    (test_base : pydict) (model_name test_config : pyval)
    (root package all_projects : pyval) :
  (forall test_type,
     test_type = PStr "not_null" \/ test_type = PStr "unique" ->
     (forall m, model_name <> PStr m) ->
     exists msg,
       parse_schema_test test_base model_name test_config test_type
                         root package all_projects
       = (Raise (TypeError msg), [])) /\
  (forall m d,
     model_name = PStr m -> test_config = PDict d ->
     (forall to_, py_get d "to" <> PStr to_) ->
     exists msg,
       parse_schema_test test_base model_name test_config
                         (PStr "relationships") root package all_projects
       = (Raise (TypeError msg), [])).
Proof.
  split.
  - intros test_type Ht Hm.
    assert (Href : exists msg, ref_of model_name = Raise (TypeError msg)).
    { unfold ref_of, str_add. destruct model_name; try (by eexists).
      by destruct (Hm s). }
    destruct Href as [msg Href]. exists msg.
    unfold parse_schema_test, schema_test_definition, schema_test_sql.
    destruct Ht as [-> | ->];
      cbn [py_eq_str String.eqb Ascii.eqb Bool.eqb]; by rewrite Href.
  - intros m d -> -> Hto.
    assert (Href : exists msg, ref_of (py_get d "to") = Raise (TypeError msg)).
    { unfold ref_of, str_add. destruct (py_get d "to"); try (by eexists).
      by destruct (Hto s). }
    destruct Href as [msg Href]. exists msg.
    unfold parse_schema_test, schema_test_definition, schema_test_sql.
    cbn [py_eq_str String.eqb Ascii.eqb Bool.eqb].
    unfold ref_of at 1. cbn [str_add rbind]. by rewrite Href.
Qed.

Lemma archive_tables_nodes project archive_config tables :
  forall archives r,
    archive_tables project archive_config tables archives = Ok r ->
    r = (archives ++ table_nodes project archive_config tables)%list.
Proof.
  induction tables as [|t tables IH]; intros archives r.
  - cbn. intros [= <-]. by rewrite app_nil_r.
  - destruct t; try done. cbn [archive_tables]. intros H.
    apply IH in H as ->. unfold table_nodes. cbn [flat_map].
    by rewrite <- app_assoc.
Qed.

Lemma archive_configs_loop_nodes project archive_configs :
  forall archives r,
    archive_configs_loop project archive_configs archives = Ok r ->
    r = (archives ++ config_nodes project archive_configs)%list.
Proof.
  induction archive_configs as [|c cs IH]; intros archives r.
  - cbn. intros [= <-]. by rewrite app_nil_r.
  - destruct c as [| | | | | | |ac]; try done.
    cbn [archive_configs_loop]. unfold config_nodes. cbn [flat_map].
    fold (config_nodes project cs).
    destruct (py_get ac "tables") eqn:Ht;
      try (intros H; apply IH in H as ->; reflexivity);
      cbn [py_iter rbind]; try done.
    all: match goal with
         | |- context [archive_tables ?p ?a ?ts ?acc] =>
             destruct (archive_tables p a ts acc) as [r1|] eqn:Hr; [|done]
         end.
    all: cbn [rbind]; intros H; apply IH in H as ->.
    all: apply archive_tables_nodes in Hr as ->.
    all: by rewrite <- app_assoc.
Qed.

(** X20. When [parse_archives_from_project] returns, its archives are,
    in configuration order, one node for every table of every archive
    config that has tables, and none for a config without them; each
    node has the no-op SQL and the archive resource type, and its
    config carries the source and target schema of its archive config,
    whatever the table itself says. *)
Theorem parse_archives_from_project_nodes
    (project : pydict) (archives : list pydict) :
  parse_archives_from_project project = Ok archives ->
  exists archive_configs,
    py_iter (py_get_default project "archive" (PList [])) = Ok archive_configs /\
    archives = config_nodes project archive_configs /\
    (forall a, a ∈ archives ->
       exists archive_config table config,
         PDict archive_config ∈ archive_configs /\
         a = archive_node project archive_config table /\
         dict_get "raw_sql" a = Some (PStr "-- noop") /\
         dict_get "resource_type" a = Some (PStr NodeType_Archive) /\
         dict_get "config" a = Some (PDict config) /\
         dict_get "source_schema" config
           = Some (py_get archive_config "source_schema") /\
         dict_get "target_schema" config
           = Some (py_get archive_config "target_schema")).
Proof.
  unfold parse_archives_from_project.
  destruct (py_iter _) as [cfgs|]; [|done]. cbn [rbind]. intros H.
  apply archive_configs_loop_nodes in H. rewrite app_nil_l in H. subst.
  exists cfgs. split; [done|]. split; [done|].
  intros a Ha. unfold config_nodes in Ha.
  apply list_elem_of_In, in_flat_map in Ha as (c & Hc & Ha).
  apply list_elem_of_In in Hc.
  destruct c as [| | | | | | |ac]; try done.
  assert (Hin : exists tables, In a (table_nodes project ac tables)).
  { destruct (py_get ac "tables"); try done;
      match type of Ha with
      | In _ (match ?r with _ => _ end) =>
          destruct r as [tables|]; [by exists tables|done]
      end. }
  destruct Hin as [tables Hin]. unfold table_nodes in Hin.
  apply in_flat_map in Hin as (t & _ & Hin).
  destruct t as [| | | | | | |table]; try done.
  destruct Hin as [<-|[]].
  eexists ac, table, _. split; [done|]. split; [done|].
  split; [reflexivity|]. split; [reflexivity|]. split; [reflexivity|].
  split.
  - rewrite dict_get_set_ne by done. apply dict_get_set_eq.
  - apply dict_get_set_eq.
Qed.

End ParserMoreFacts.

(** ** Concrete runs *)

Lemma transaction_protocol_witness :
  (exists msg, begin (A:=demo_adapter) demo_profile "master" demo_world_begun
               = (Raise (ProgrammingException msg), demo_world_begun))
  /\ ((exists msg, commit (A:=demo_adapter) (demo_connection false)
                     demo_world_idle
                   = (Raise (ProgrammingException msg), demo_world_idle)) /\
      (exists msg, rollback (A:=demo_adapter) (demo_connection false)
                     demo_world_idle
                   = (Raise (ProgrammingException msg), demo_world_idle)))
  /\ begin (A:=strict_adapter) demo_profile "master" (lost_world true)
     = (Raise (ValidationException "Invalid connection"), lost_world true)
  /\ (commit (A:=strict_adapter) (lost_connection false) (lost_world false)
      = (Raise (ValidationException "Invalid connection"), lost_world false)
      /\
      rollback (A:=strict_adapter) (lost_connection false) (lost_world false)
      = (Raise (ValidationException "Invalid connection"), lost_world false))
  /\ (exists w',
        begin (A:=demo_adapter) demo_profile "master" demo_world_idle
        = (Ok 0, w') /\
        heap w' !! 0 = Some (demo_connection true) /\
        connection_cache w' !! "master" = Some 0)
  /\ (exists w',
        commit (A:=demo_adapter) (demo_connection true) demo_world_begun
        = (Ok 0, w') /\
        heap w' !! 0 = Some (demo_connection false) /\
        connection_cache w' !! "master" = Some 0 /\
        trace w' = (trace demo_world_begun ++ [EvCommit "master"])%list)
  /\ (exists w',
        rollback (A:=demo_adapter) (demo_connection true) demo_world_begun
        = (Ok 0, w') /\
        heap w' !! 0 = Some (demo_connection false) /\
        connection_cache w' !! "master" = Some 0 /\
        trace w' = (trace demo_world_begun ++ [EvRollback "master"])%list)
  /\ (connection_cache demo_world_begun !! "master" = Some 0 /\
      exists c, heap demo_world_begun !! 0 = Some c /\
                c_transaction_open c = true)
  /\ (exists c,
        heap (snd (commit (A:=demo_adapter) (demo_connection true)
                     demo_world_begun)) !! 0 = Some c /\
        c_transaction_open c = false /\
        connection_cache (snd (commit (A:=demo_adapter) (demo_connection true)
                                 demo_world_begun)) !! c_name c = Some 0).
Proof.
  pose proof (transaction_protocol (A:=demo_adapter))
    as (Hbegin & Hend & _ & _ & Hbegin_ok & Hend_ok & Hbegun & Hended).
  pose proof (transaction_protocol (A:=strict_adapter))
    as (_ & _ & Hbegin_strict & Hend_strict & _).
  split; [|split; [|split; [|split; [|split; [|split; [|split; [|split]]]]]]].
  - apply (Hbegin demo_profile "master" demo_world_begun 0
             (demo_connection true)).
    + vm_compute. reflexivity.
    + vm_compute. reflexivity.
    + left. reflexivity.
    + reflexivity.
  - apply (Hend (demo_connection false) demo_world_idle 0
             (demo_connection false)).
    + left. reflexivity.
    + vm_compute. reflexivity.
    + vm_compute. reflexivity.
    + reflexivity.
  - apply (Hbegin_strict demo_profile "master" (lost_world true) 0
             (lost_connection true)).
    + vm_compute. reflexivity.
    + reflexivity.
    + reflexivity.
    + reflexivity.
  - apply (Hend_strict (lost_connection false) (lost_world false)).
    + reflexivity.
    + reflexivity.
  - apply (Hbegin_ok demo_profile "master" demo_world_idle 0
             (demo_connection false) 0 (demo_connection false) "postgres"
             (mkCursor "master" "BEGIN" []) "OK: BEGIN").
    + vm_compute. reflexivity.
    + vm_compute. reflexivity.
    + left. reflexivity.
    + reflexivity.
    + vm_compute. reflexivity.
    + vm_compute. reflexivity.
    + reflexivity.
    + vm_compute. reflexivity.
    + reflexivity.
  - destruct (Hend_ok (demo_connection true) demo_world_begun 0
                (demo_connection true) 1) as [Hcommit _].
    + left. reflexivity.
    + vm_compute. reflexivity.
    + vm_compute. reflexivity.
    + reflexivity.
    + reflexivity.
    + apply Hcommit. reflexivity.
  - destruct (Hend_ok (demo_connection true) demo_world_begun 0
                (demo_connection true) 1) as [_ Hrollback].
    + left. reflexivity.
    + vm_compute. reflexivity.
    + vm_compute. reflexivity.
    + reflexivity.
    + reflexivity.
    + apply Hrollback. reflexivity.
  - apply (Hbegun demo_profile "master" empty_world demo_world_begun 0).
    vm_compute. reflexivity.
  - apply (Hended (demo_connection true) demo_world_begun _ 0).
    left. vm_compute. reflexivity.
Defined.

(** C5 as stated fails. With the connection of [master] in a
    transaction, [commit] and [rollback] on a copy of that connection
    made before [begin], whose [transaction_open] is false, return
    normally: they act on the connection they reload from the cache.
    And in strict mode [begin] on a connection whose flag is set raises
    the error of the contract check when the connection fails it. *)
Lemma transaction_flag_counterexample :
  c_transaction_open (demo_connection false) = false /\
  heap demo_world_idle !! 0 = Some (demo_connection false) /\
  begin (A:=demo_adapter) demo_profile "master" demo_world_idle
  = (Ok 0, demo_world_begun) /\
  fst (commit (A:=demo_adapter) (demo_connection false) demo_world_begun)
  = Ok 0 /\
  fst (rollback (A:=demo_adapter) (demo_connection false) demo_world_begun)
  = Ok 0 /\
  c_transaction_open (lost_connection true) = true /\
  fst (begin (A:=strict_adapter) demo_profile "master" (lost_world true))
  = Raise (ValidationException "Invalid connection").
Proof. repeat split; vm_compute; reflexivity. Qed.

Lemma get_connection_idempotent_witness :
  (connection_cache demo_world_idle !! "master" = Some 0) /\
  get_connection (A:=demo_adapter) [] (Some "master") demo_world_idle
  = (Ok 0, demo_world_idle) /\
  exists c, heap demo_world_idle !! 0 = Some c /\
            deref 0 demo_world_idle = (Ok c, demo_world_idle) /\
            c_handle c = Some 1.
Proof.
  destruct (get_connection_idempotent (A:=demo_adapter) demo_profile []
              (Some "master") empty_world demo_world_idle 0)
    as (Hcached & Hagain & _ & Hstored).
  - vm_compute. reflexivity.
  - split; [exact Hcached|]. split; [exact Hagain|].
    destruct Hstored as (c & Hc & Hd).
    + intros name l. cbn [empty_world connection_cache].
      by rewrite lookup_empty.
    + exists c. split; [exact Hc|]. split; [exact Hd|].
      assert (Hc' := Hc). vm_compute in Hc'. by injection Hc' as <-.
Defined.

Lemma acquire_connection_frame_witness :
  exists credentials result s',
    acquire_connection_record (A:=demo_adapter) 0 "master" [demo_profile]
    = (Ok (credentials, result), s') /\
    (s' !! 0 = Some demo_profile) /\
    credentials = 1 /\
    (s' !! credentials = Some demo_credentials) /\
    c_credentials result = demo_credentials /\
    acquire_connection (A:=demo_adapter) demo_profile "master" empty_world
    = (Ok (demo_connection false),
       mkWorld ∅ [] [EvOpenConnection result]).
Proof.
  destruct (acquire_connection_frame (A:=demo_adapter) [demo_profile] 0
              demo_profile "master" "postgres" empty_world
              eq_refl eq_refl)
    as (credentials & result & s' & Hrun & Hprofile & _ & _ & Hcred & Hc &
        _ & _ & _ & _ & _ & _ & Hopen).
  exists credentials, result, s'.
  split; [exact Hrun|]. split; [exact Hprofile|].
  assert (Hrun' := Hrun). vm_compute in Hrun'.
  injection Hrun' as <- <- <-.
  split; [reflexivity|]. split; [reflexivity|]. split; [reflexivity|].
  apply Hopen. left. reflexivity.
Defined.

Lemma get_missing_columns_exact_witness :
  exists w2,
    get_missing_columns (A:=demo_adapter) demo_profile
      PNone (PStr "orders__dbt_tmp") (PStr "analytics") (PStr "orders")
      None empty_world
    = (Ok [mkColumn "b" "integer" None], w2).
Proof.
  edestruct (get_missing_columns_exact (A:=demo_adapter) demo_profile
               PNone (PStr "orders__dbt_tmp") (PStr "analytics")
               (PStr "orders") None empty_world)
    as (result & Hr & _ & _ & _ & Hf).
  - vm_compute. reflexivity.
  - vm_compute. reflexivity.
  - eexists. rewrite Hr, Hf.
    + vm_compute. reflexivity.
    + apply (bool_decide_unpack _). vm_compute. reflexivity.
Defined.



Lemma execute_model_status_witness :
  exists sql cursor,
    last_statement
      (execute_model_actions
         (mkModel (Some "orders")
            (compose_document (fst demo_document) (snd demo_document))))
    = Some sql /\
    cursor_of (A:=demo_adapter) cursor sql /\
    get_status (Adapter:=demo_adapter) cursor
    = Ok ("OK: " +:+ char_str newline +:+
          "insert into orders (select * from orders__dbt_tmp);").
Proof.
  eapply (execute_model_status (A:=demo_adapter) demo_profile
            (mkModel (Some "orders")
               (compose_document (fst demo_document) (snd demo_document)))
            empty_world).
  vm_compute. reflexivity.
Defined.

(** C4 as stated fails: when the compiled SQL ends with a marker line,
    the status returned is the one of the empty text run after the
    operation, which is none of the statuses the adapter reported for the
    statement before it or for the queries of the operation. *)
Lemma status_of_last_segment_counterexample :
  let segments := [Statement "select 1"; Marker demo_operation] in
  let model := mkModel (Some "orders") (wrapped_of segments) in
  let run := execute_model (A:=demo_adapter) demo_profile model empty_world in
  last segments = Some (Marker demo_operation) /\
  fst run = Ok "OK: " /\
  last (trace (snd run)) = Some (EvExecute "orders" "") /\
  Forall (fun ev => match ev with
                    | EvExecute n q =>
                        get_status (Adapter:=demo_adapter)
                          (mkCursor n q (demo_rows q)) <> Ok "OK: "
                    | _ => True
                    end)
         (removelast (trace (snd run))).
Proof.
  vm_compute. repeat split; repeat constructor; discriminate.
Qed.

(** C1 on the model [orders] of package [analytics] that selects from
    [ref('raw_orders')]. [parse_node] gives its copy of the node an
    empty [depends_on], computes the fqn and the source config, and
    then calls [get_rendered] with the keyword [capture_macros], which
    [get_rendered] does not have: the call raises before anything is
    rendered. No node is returned, so none carries
    [model.analytics.raw_orders] in its [depends_on.nodes]. *)
Theorem parse_node_ref_dependency :
  parse_node_prepare (P:=demo_parser) demo_model_node demo_project
                     demo_project None
  = Ok (dict_update demo_model_node [("depends_on", empty_depends_on)],
        [PStr "analytics"; PStr "orders"], demo_source_config) /\
  parse_node (P:=demo_parser) demo_model_node "model.analytics.orders"
             demo_project demo_project (PDict []) None None
  = (Raise unexpected_capture_macros, []) /\
  forall node out,
    parse_node (P:=demo_parser) demo_model_node "model.analytics.orders"
               demo_project demo_project (PDict []) None None
    <> (Ok node, out).
Proof.
  split; [vm_compute; reflexivity|].
  assert (H : parse_node (P:=demo_parser) demo_model_node
                "model.analytics.orders" demo_project demo_project
                (PDict []) None None
              = (Raise unexpected_capture_macros, []))
    by (vm_compute; reflexivity).
  split; [exact H|]. intros node out. rewrite H. discriminate.
Qed.

(** C2 on a template that adds to an unresolved name. [parse_node] does
    not reach the render: its keyword [capture_macros] is rejected by
    [get_rendered]. The silent mode of the client would have printed
    the diagnostic and gone on; without a keyword selecting it the
    default mode turns the access into a compiler error. *)
Theorem parse_node_undefined_name :
  parse_node (P:=demo_parser) demo_undefined_node "model.analytics.orders"
             demo_project demo_project (PDict []) None None
  = (Raise unexpected_capture_macros, []) /\
  get_rendered (P:=demo_parser) (PStr "select {{ undefined_name + 1 }}")
               parse_node_context demo_undefined_node
               true (demo_render_state demo_undefined_node [])
  = (Ok "select {{ undefined_name + 1 }}",
     demo_render_state demo_undefined_node
       ["UNDEFINED: model=orders name=undefined_name"]) /\
  get_rendered (P:=demo_parser) (PStr "select {{ undefined_name + 1 }}")
               parse_node_context demo_undefined_node
               false (demo_render_state demo_undefined_node [])
  = (Raise (CompilerError (PStr "orders") "'undefined_name' is undefined"),
     demo_render_state demo_undefined_node []).
Proof. repeat split; vm_compute; reflexivity. Qed.

(** C7 on the schema [orders: {constraints: {not_null: [order_id]}}].
    The definition [parse_schema_test] builds has the name, the resource
    type of the schema file and the SQL that counts null [order_id]
    values of [ref('orders')], but handing it to
    [parse_node] raises, so no node is generated. *)
Theorem parse_schema_test_not_null :
  schema_test_definition (P:=demo_parser) demo_test_base (PStr "orders")
                         (PStr "order_id") (PStr "not_null")
  = Ok (Some
      ([("name", PStr "not_null_orders_order_id");
        ("resource_type", PStr "test");
        ("package_name", PStr "analytics");
        ("root_path", PStr "/project");
        ("path", PStr "models/schema_test/not_null_orders_order_id.sql");
        ("raw_sql",
         PStr (lines [""; "with validation as (";
                      "  select order_id as f";
                      "  from {{ref('orders')}}"; ")";
                      "select count(" +:+ "*" +:+
                        ") from validation where f is null"; ""]))],
       "test.analytics.not_null_orders_order_id")) /\
  parse_schema_test (P:=demo_parser) demo_test_base (PStr "orders")
                    (PStr "order_id") (PStr "not_null")
                    demo_project demo_project (PDict [])
  = (Raise unexpected_capture_macros, []).
Proof. split; vm_compute; reflexivity. Qed.

Lemma parse_schema_test_skips_and_rejects_witness :
  parse_schema_test (P:=demo_parser) demo_test_base (PStr "orders")
                    (PStr "order_id") (PStr "relationships")
                    demo_project demo_project (PDict []) = (Ok None, []) /\
  parse_schema_test (P:=demo_parser) demo_test_base (PStr "orders")
                    (PList [PStr "a"; PStr "b"]) (PStr "accepted_values")
                    demo_project demo_project (PDict []) = (Ok None, []) /\
  exists msg,
    parse_schema_test (P:=demo_parser) demo_test_base (PStr "orders")
                      (PStr "order_id") (PStr "not_nul")
                      demo_project demo_project (PDict [])
    = (Raise (ValidationException msg), []).
Proof.
  pose proof (parse_schema_test_skips_and_rejects (P:=demo_parser))
    as [Hskip Hreject].
  split; [|split].
  - apply Hskip; [by left|discriminate].
  - apply Hskip; [by right|discriminate].
  - apply Hreject; discriminate.
Defined.

(** ** Concrete runs of the further properties *)

Lemma get_connection_acquires_witness :
  exists w',
    get_connection (A:=demo_adapter) demo_profile (Some "orders")
                   demo_world_idle = (Ok 1, w') /\
    connection_cache w' !! "master" = Some 0 /\
    heap w' !! 1 = Some (demo_connection_named "orders" false).
Proof.
  destruct (get_connection_acquires (A:=demo_adapter) demo_profile "orders"
              "postgres" demo_world_idle
              (demo_connection_named "orders" false))
    as (w' & Hg & Hc & Hh & _ & Hother & _).
  - vm_compute. reflexivity.
  - reflexivity.
  - left. reflexivity.
  - reflexivity.
  - exists w'. split; [exact Hg|]. split.
    + rewrite Hother by discriminate. vm_compute. reflexivity.
    + rewrite Hh. reflexivity.
Defined.

Lemma close_keeps_cached_witness :
  exists c,
    heap (snd (close (A:=demo_adapter) (demo_connection false)
                 demo_world_idle)) !! 0 = Some c /\
    c_state c = "closed" /\
    get_connection (A:=demo_adapter) demo_profile (Some (c_name c))
      (snd (close (A:=demo_adapter) (demo_connection false) demo_world_idle))
    = (Ok 0, snd (close (A:=demo_adapter) (demo_connection false)
                    demo_world_idle)).
Proof.
  destruct (close_keeps_cached (A:=demo_adapter) (demo_connection false)
              demo_profile demo_world_idle
              (snd (close (A:=demo_adapter) (demo_connection false)
                      demo_world_idle)) 0)
    as (c & Hh & Hs & _ & _ & Hg).
  - vm_compute. reflexivity.
  - exists c. split; [exact Hh|]. split; [exact Hs|exact Hg].
Defined.

Lemma add_query_error_mapping_witness :
  add_query (A:=fragile_adapter) demo_profile "select broken" None
            demo_world_idle
  = (Raise (RuntimeError "Database Error in master: select broken"),
     demo_world_idle) /\
  add_query (A:=fragile_adapter) demo_profile "vacuum" None demo_world_idle
  = (Raise (RuntimeError "Database Error in master: vacuum"),
     with_event demo_world_idle (EvExecute "master" "vacuum")).
Proof.
  destruct (add_query_error_mapping (A:=fragile_adapter) demo_profile
              "select broken" None demo_world_idle 0
              (demo_connection false) "postgres") as [Hfail _];
    [vm_compute; reflexivity|vm_compute; reflexivity|reflexivity|].
  destruct (add_query_error_mapping (A:=fragile_adapter) demo_profile
              "vacuum" None demo_world_idle 0
              (demo_connection false) "postgres") as [_ Hstatus];
    [vm_compute; reflexivity|vm_compute; reflexivity|reflexivity|].
  split.
  - apply (Hfail (DriverError "syntax error")). reflexivity.
  - apply (Hstatus (mkCursor "master" "vacuum" [])
                   (AttributeError "statusmessage")); reflexivity.
Defined.

Lemma begin_runs_on_master_witness :
  exists w',
    begin (A:=demo_adapter) demo_profile "orders" demo_world_two = (Ok 1, w') /\
    trace w' = (trace demo_world_two ++ [EvExecute "master" "BEGIN"])%list /\
    heap w' !! 1 = Some (demo_connection_named "orders" true) /\
    heap w' !! 0 = Some (demo_connection false).
Proof.
  eexists. split.
  - apply (begin_runs_on_master (A:=demo_adapter) demo_profile "orders"
             demo_world_two 1 0 (demo_connection_named "orders" false)
             (demo_connection false) "postgres" "OK: BEGIN"
             (mkCursor "master" "BEGIN" []));
      try (vm_compute; reflexivity).
    left. reflexivity.
  - split; [reflexivity|]. split; vm_compute; reflexivity.
Defined.

Lemma begin_commit_commit_witness :
  exists w2,
    commit (A:=demo_adapter) (demo_connection true) demo_world_begun
    = (Ok 0, w2) /\
    heap w2 !! 0 = Some (demo_connection false) /\
    exists msg,
      commit (A:=demo_adapter) (demo_connection false) w2
      = (Raise (ProgrammingException msg), w2).
Proof.
  destruct (begin_commit_commit (A:=demo_adapter) demo_profile "master"
              empty_world demo_world_begun 0 (demo_connection true) 1)
    as (w2 & Hc & Hh & _ & Hagain).
  - vm_compute. reflexivity.
  - vm_compute. reflexivity.
  - reflexivity.
  - left. reflexivity.
  - left. reflexivity.
  - reflexivity.
  - reflexivity.
  - exists w2. split; [exact Hc|]. split; [exact Hh|exact Hagain].
Defined.

Lemma execute_all_in_order_witness :
  trace (snd (execute_all (A:=demo_adapter) demo_profile
                ["create table t (id int)"; "insert into t values (1)"]
                None demo_world_idle))
  = (trace demo_world_idle ++
     [EvExecute "master" "create table t (id int)";
      EvExecute "master" "insert into t values (1)"])%list.
Proof.
  destruct (execute_all_in_order (A:=demo_adapter) demo_profile
              ["create table t (id int)"; "insert into t values (1)"]
              None demo_world_idle
              (snd (execute_all (A:=demo_adapter) demo_profile
                      ["create table t (id int)"; "insert into t values (1)"]
                      None demo_world_idle))
              0 0 (demo_connection false)) as (_ & _ & _ & Ht).
  - vm_compute. reflexivity.
  - vm_compute. reflexivity.
  - vm_compute. reflexivity.
  - exact Ht.
Defined.

Lemma drop_by_relation_type_witness :
  (exists msg,
     drop (A:=demo_adapter) demo_profile (PStr "orders") (PStr "index") None
          demo_world_idle = (Raise (RuntimeError msg), demo_world_idle)) /\
  drop (A:=demo_adapter) demo_profile (PStr "orders") (PStr "view") None
       demo_world_idle
  = (Ok tt,
     with_event demo_world_idle
       (EvExecute "master" (drop_view_sql demo_profile (PStr "orders")))).
Proof.
  destruct (drop_by_relation_type (A:=demo_adapter) demo_profile
              (PStr "orders") (PStr "index") None demo_world_idle)
    as [Hbad _].
  destruct (drop_by_relation_type (A:=demo_adapter) demo_profile
              (PStr "orders") (PStr "view") None demo_world_idle)
    as [_ Hgood].
  split.
  - apply Hbad; discriminate.
  - apply (Hgood 0 (demo_connection false) "postgres").
    + vm_compute. reflexivity.
    + vm_compute. reflexivity.
    + reflexivity.
    + intros sql. by eexists _, _.
Defined.

Lemma demo_world_two_cache :
  connection_cache demo_world_two
  = <["orders" := 1]> ({["master" := 0]} : gmap string loc).
Proof. vm_compute. reflexivity. Qed.

Lemma cleanup_connections_clears_witness :
  exists messages,
    cleanup_connections demo_world_two
    = (Ok messages, mkWorld ∅ (heap demo_world_two) (trace demo_world_two)) /\
    length messages = 2 /\
    "Connection 'orders' was left open." ∈ messages.
Proof.
  destruct (cleanup_connections_clears demo_world_two)
    as (messages & Hrun & Hlen & Hin).
  - intros name l. rewrite demo_world_two_cache.
    destruct (decide (name = "orders")) as [->|Hne].
    + rewrite lookup_insert_eq. intros [= <-]. vm_compute. eauto.
    + rewrite lookup_insert_ne by done.
      destruct (decide (name = "master")) as [->|Hne'].
      * rewrite lookup_singleton_eq. intros [= <-]. vm_compute. eauto.
      * by rewrite lookup_singleton_ne.
  - exists messages. split; [exact Hrun|]. split.
    + rewrite Hlen. vm_compute. reflexivity.
    + apply (Hin "orders" 1 (demo_connection_named "orders" false));
        vm_compute; reflexivity.
Defined.

Lemma expand_target_column_types_alters_witness :
  trace (snd (expand_target_column_types (A:=demo_adapter) demo_profile
                (PStr "orders__dbt_tmp") (PStr "analytics") (PStr "orders")
                None demo_world_idle))
  = (trace demo_world_idle ++
     [EvExecute "master" (columns_query PNone (PStr "orders__dbt_tmp"));
      EvExecute "master" (columns_query (PStr "analytics") (PStr "orders"));
      EvAlterColumnType (PStr "analytics") (PStr "orders") "a"
                        "character varying(20)"])%list.
Proof.
  pose (w1 := snd (get_columns_in_table (A:=demo_adapter) demo_profile PNone
                     (PStr "orders__dbt_tmp") None demo_world_idle)).
  pose (w2 := snd (get_columns_in_table (A:=demo_adapter) demo_profile
                     (PStr "analytics") (PStr "orders") None w1)).
  destruct (expand_target_column_types_alters (A:=demo_adapter) demo_profile
              (PStr "orders__dbt_tmp") (PStr "analytics") (PStr "orders")
              None demo_world_idle w1 w2
              (snd (expand_target_column_types (A:=demo_adapter)
                      demo_profile (PStr "orders__dbt_tmp")
                      (PStr "analytics") (PStr "orders") None
                      demo_world_idle))
              [mkColumn "a" "character varying" (Some 20%Z);
               mkColumn "b" "integer" None; mkColumn "c" "text" None]
              [mkColumn "a" "character varying" (Some 10%Z);
               mkColumn "c" "text" None]) as (_ & _ & Ht & _).
  - vm_compute. reflexivity.
  - vm_compute. reflexivity.
  - vm_compute. reflexivity.
  - rewrite Ht. vm_compute. reflexivity.
Defined.

Lemma malformed_marker_is_executed_witness :
  execute_model_actions
    (mkModel (Some "orders")
       (("select 1;" +:+ char_str newline) +:+ marker_start +:+
        "expand_column_types_if_needed"))
  = [RunStatement ("select 1;" +:+ char_str newline);
     RunStatement "DBT_OPERATION expand_column_types_if_needed";
     RunStatement ""].
Proof.
  apply (malformed_marker_is_executed (Some "orders")
           ("select 1;" +:+ char_str newline)
           "expand_column_types_if_needed"); reflexivity.
Defined.

Lemma execute_model_without_statement_witness :
  exists w1,
    execute_model (A:=demo_adapter) demo_profile
      (mkModel (Some "orders") ("DBT_OPERATION " +:+ demo_operation))
      demo_world_idle
    = (Raise (UnboundLocalError "cursor"), w1) /\
    last (trace w1)
    = Some (EvAlterColumnType (PStr "analytics") (PStr "orders") "a"
                              "character varying(20)").
Proof.
  eexists. split.
  - apply (execute_model_without_statement (A:=demo_adapter) demo_profile
             (Some "orders") ("DBT_OPERATION " +:+ demo_operation)
             demo_operation demo_instruction
             (PStr "expand_column_types_if_needed")
             (PDict [("temp_table", PStr "orders__dbt_tmp");
                     ("to_schema", PStr "analytics");
                     ("to_table", PStr "orders")]));
      vm_compute; reflexivity.
  - vm_compute. reflexivity.
Defined.

Lemma get_rendered_error_kinds_witness :
  (forall msg,
     CompilerError (PStr "orders") "'undefined_name' is undefined"
     <> UndefinedError msg) /\
  get_rendered (P:=picky_parser) (PStr "select {{") parse_node_context
               demo_model_node false picky_render_state
  = (Raise (CompilerError (PStr "orders") "unexpected end of template"),
     picky_render_state).
Proof.
  destruct (get_rendered_error_kinds (P:=demo_parser)
              (PStr "select {{ undefined_name + 1 }}") parse_node_context
              demo_undefined_node false
              (demo_render_state demo_undefined_node [])) as [Hkinds _].
  destruct (get_rendered_error_kinds (P:=picky_parser) (PStr "select {{")
              parse_node_context demo_model_node false picky_render_state)
    as [_ Hsyntax].
  split.
  - apply (Hkinds _ (demo_render_state demo_undefined_node [])).
    vm_compute. reflexivity.
  - apply Hsyntax. reflexivity.
Defined.

Lemma parse_node_never_returns_witness :
  parse_node (P:=demo_parser) demo_model_node "model.analytics.orders"
             demo_project demo_project (PDict []) None None
  = (Raise unexpected_capture_macros, []).
Proof.
  destruct (parse_node_never_returns (P:=demo_parser) demo_model_node
              "model.analytics.orders" demo_project demo_project (PDict [])
              None None) as (e & Hrun & He).
  rewrite Hrun, He; reflexivity.
Defined.

Lemma get_path_injective_witness :
  "model" = "model" /\ "analytics" = "analytics" /\ "orders.v2" = "orders.v2".
Proof.
  apply (get_path_injective "model" "analytics" "orders.v2"
           "model" "analytics" "orders.v2"); reflexivity.
Defined.

Lemma parse_schema_test_type_errors_witness :
  (exists msg,
     parse_schema_test (P:=demo_parser) demo_test_base (PInt 2017)
                       (PStr "order_id") (PStr "not_null")
                       demo_project demo_project (PDict [])
     = (Raise (TypeError msg), [])) /\
  (exists msg,
     parse_schema_test (P:=demo_parser) demo_test_base (PStr "orders")
                       (PDict [("from", PStr "customer_id");
                               ("field", PStr "id")])
                       (PStr "relationships")
                       demo_project demo_project (PDict [])
     = (Raise (TypeError msg), [])).
Proof.
  split.
  - destruct (parse_schema_test_type_errors (P:=demo_parser) demo_test_base
                (PInt 2017) (PStr "order_id") demo_project demo_project
                (PDict [])) as [Hname _].
    apply Hname; [by left|discriminate].
  - destruct (parse_schema_test_type_errors (P:=demo_parser) demo_test_base
                (PStr "orders")
                (PDict [("from", PStr "customer_id"); ("field", PStr "id")])
                demo_project demo_project (PDict [])) as [_ Hto].
    eapply Hto; [reflexivity|reflexivity|discriminate].
Defined.

Lemma parse_archives_from_project_nodes_witness :
  exists a config,
    parse_archives_from_project (P:=demo_parser) demo_archive_project
    = Ok [a] /\
    dict_get "name" a = Some (PStr "users_archived") /\
    dict_get "config" a = Some (PDict config) /\
    dict_get "source_schema" config = Some (PStr "production").
Proof.
  edestruct (parse_archives_from_project_nodes (P:=demo_parser)
               demo_archive_project) as (cfgs & _ & Hall & _).
  - vm_compute. reflexivity.
  - eexists _, _. split; [reflexivity|]. repeat split.
Defined.
